(** * mimic-on-hapi-fhir: the batch patient filter and the bulk-import type table

    A shallow embedding of [filter_fhir_by_patients.py] (class
    [SimpleBatchFilter], [read_patient_list], [main]), of
    [map_filename_to_resource_type], [get_available_files] and
    [create_import_job] of [FHIRBulkImporter] from [bulk_import.py], and of
    the request handler [FHIRFileHandler] from [fhir_file_server.py].

    Conventions of the embedding:
    - a Python [str] is a [string]; its characters are code points below 256;
    - a file opened in text mode is read with universal newlines, as Python
      does when [newline] is left at its default;
    - the file system maps a path, a pair (directory, entry name), to the
      text of the file; for a [*.gz] entry this is the text that
      [gzip -cd] yields, which is what [zgrep] hands to [grep];
    - the external command [zgrep -F -f PATTERNS FILE] is modelled from the
      documented behaviour of [grep -F] on text input: lines are separated
      by line feeds only, the pattern file holds one pattern per line, a
      line is selected when it contains one of the patterns, and the exit
      status is 0 when a line was selected, 1 when none was, 2 on error;
      this holds for input that [grep] takes for text; what it writes for
      input that it takes for binary data (a NUL byte, or bytes that are no
      character in the locale) is left to the environment;
    - the thread pool runs each task as one step, in an order that the
      environment chooses.  The tasks of a real pool overlap; the outcome
      is the same as long as no two of them work on the same file, that
      is, as long as the source files have different output names, or
      there is one worker thread, which runs one task after the other. *)

From Stdlib Require Import Ascii String DecimalString.
From stdpp Require Import gmap strings list fin_maps.

(** ** Python string operations *)

Module Py.

Definition LF : ascii := "010"%char.
Definition CR : ascii := "013"%char.
Definition NUL : ascii := "000"%char.

(** [s.startswith(p)] *)
Fixpoint startswith (p s : string) : bool :=
  match p with
  | EmptyString => true
  | String a p' =>
      match s with
      | EmptyString => false
      | String b s' => Ascii.eqb a b && startswith p' s'
      end
  end.

(** [p in s] *)
Fixpoint contains (p s : string) : bool :=
  startswith p s ||
  match s with
  | EmptyString => false
  | String _ s' => contains p s'
  end.

(** [s.endswith(p)] *)
Fixpoint endswith (p s : string) : bool :=
  String.eqb p s ||
  match s with
  | EmptyString => false
  | String _ s' => endswith p s'
  end.

(** [s.replace(old, new)] for a non-empty [old]: occurrences are replaced
    from left to right and do not overlap.  [skip] counts the characters of
    an occurrence that are still to be dropped. *)
Fixpoint replace_from (old new : string) (skip : nat) (s : string) : string :=
  match s with
  | EmptyString => EmptyString
  | String c s' =>
      match skip with
      | S k => replace_from old new k s'
      | O =>
          if startswith old s
          then new +:+ replace_from old new (String.length old - 1) s'
          else String c (replace_from old new 0 s')
      end
  end.

Definition replace (old new s : string) : string := replace_from old new 0 s.

(** [c.isspace()] on code points below 256. *)
Definition isspace (c : ascii) : bool :=
  let n := nat_of_ascii c in
  ((9 <=? n) && (n <=? 13)) || ((28 <=? n) && (n <=? 32))
  || (n =? 133) || (n =? 160).

Fixpoint lstrip (s : string) : string :=
  match s with
  | EmptyString => EmptyString
  | String c s' => if isspace c then lstrip s' else s
  end.

Fixpoint rstrip (s : string) : string :=
  match s with
  | EmptyString => EmptyString
  | String c s' =>
      match rstrip s' with
      | EmptyString => if isspace c then EmptyString else String c EmptyString
      | r => String c r
      end
  end.

(** [s.strip()] *)
Definition strip (s : string) : string := lstrip (rstrip s).

(** The lines that iterating over a file opened with [open(p, "r")] yields.
    Universal newlines: a line ends at a line feed, at a carriage return, or
    at a carriage return followed by a line feed, and the terminator is
    handed over as one line feed.  [cur] is the line read so far. *)
Fixpoint text_lines_from (cur s : string) : list string :=
  match s with
  | EmptyString =>
      match cur with EmptyString => [] | _ => [cur] end
  | String c s' =>
      if Ascii.eqb c LF then
        (cur +:+ String LF EmptyString) :: text_lines_from EmptyString s'
      else if Ascii.eqb c CR then
        match s' with
        | String c' s'' =>
            if Ascii.eqb c' LF
            then (cur +:+ String LF EmptyString) :: text_lines_from EmptyString s''
            else (cur +:+ String LF EmptyString) :: text_lines_from EmptyString s'
        | EmptyString => [cur +:+ String LF EmptyString]
        end
      else text_lines_from (cur +:+ String c EmptyString) s'
  end.

Definition text_lines (s : string) : list string :=
  text_lines_from EmptyString s.

(** [str(n)] for a natural number. *)
Definition str (n : nat) : string := NilZero.string_of_uint (Nat.to_uint n).

Fixpoint spaces (n : nat) : string :=
  match n with
  | O => EmptyString
  | S k => String " "%char (spaces k)
  end.

(** [f"{s:<w}"] and [f"{s:>w}"] *)
Definition ljust (w : nat) (s : string) : string :=
  s +:+ spaces (w - String.length s).
Definition rjust (w : nat) (s : string) : string :=
  spaces (w - String.length s) +:+ s.

(** [c * n] for a one-character string *)
Fixpoint repeat_char (c : ascii) (n : nat) : string :=
  match n with
  | O => EmptyString
  | S k => String c (repeat_char c k)
  end.

(** [sep.join(l)] *)
Fixpoint join (sep : string) (l : list string) : string :=
  match l with
  | [] => EmptyString
  | [x] => x
  | x :: xs => x +:+ sep +:+ join sep xs
  end.

(** [sorted(l)] on strings: code-point order. *)
Fixpoint insort (x : string) (l : list string) : list string :=
  match l with
  | [] => [x]
  | y :: ys => if String.leb x y then x :: l else y :: insort x ys
  end.

Definition sorted (l : list string) : list string := foldr insort [] l.

(** Index of the last ["."] of [s] ([s.rfind(".")]). *)
Fixpoint rfind_dot (s : string) : option nat :=
  match s with
  | EmptyString => None
  | String c s' =>
      match rfind_dot s' with
      | Some i => Some (S i)
      | None => if Ascii.eqb c "."%char then Some 0 else None
      end
  end.

(** [PurePath.stem]: the name without its last suffix; a dot in first or
    last position starts no suffix. *)
Definition stem (name : string) : string :=
  match rfind_dot name with
  | Some i =>
      if (0 <? i) && (i <? String.length name - 1)
      then String.substring 0 i name
      else name
  | None => name
  end.

End Py.

(** ** [bulk_import.py] *)

Module BulkImport.

(** The dict [type_mapping], in insertion order, which is the order in which
    [type_mapping.items()] is iterated. *)
Definition type_mapping : list (string * string) :=
  [ ("MimicPatient", "Patient");
    ("MimicCondition", "Condition");
    ("MimicEncounter", "Encounter");
    ("MimicLocation", "Location");
    ("MimicOrganization", "Organization");
    ("MimicMedication", "Medication");
    ("MimicMedicationAdministration", "MedicationAdministration");
    ("MimicMedicationDispense", "MedicationDispense");
    ("MimicMedicationRequest", "MedicationRequest");
    ("MimicMedicationStatement", "MedicationStatement");
    ("MimicObservation", "Observation");
    ("MimicProcedure", "Procedure");
    ("MimicSpecimen", "Specimen") ]%string.

(** The loop [for pattern, resource_type in type_mapping.items()]. *)
Fixpoint first_prefix (table : list (string * string)) (base_name : string)
  : option string :=
  match table with
  | [] => None
  | (pattern, resource_type) :: rest =>
      if Py.startswith pattern base_name then Some resource_type
      else first_prefix rest base_name
  end.

(** The [if]/[elif] chain after the loop. *)
Definition fallback (base_name : string) : string :=
  (if Py.contains "Patient" base_name then "Patient"
   else if Py.contains "Condition" base_name then "Condition"
   else if Py.contains "Encounter" base_name then "Encounter"
   else if Py.contains "Observation" base_name then "Observation"
   else if Py.contains "Medication" base_name then
     if Py.contains "Administration" base_name then "MedicationAdministration"
     else if Py.contains "Dispense" base_name then "MedicationDispense"
     else if Py.contains "Request" base_name then "MedicationRequest"
     else if Py.contains "Statement" base_name then "MedicationStatement"
     else "Medication"
   else if Py.contains "Procedure" base_name then "Procedure"
   else if Py.contains "Specimen" base_name then "Specimen"
   else if Py.contains "Location" base_name then "Location"
   else if Py.contains "Organization" base_name then "Organization"
   else "Unknown")%string.

Definition map_filename_to_resource_type (filename : string) : string :=
  let base_name :=
    Py.replace ".ndjson" EmptyString
      (Py.replace ".ndjson.gz" EmptyString filename) in
  match first_prefix type_mapping base_name with
  | Some resource_type => resource_type
  | None => fallback base_name
  end.

End BulkImport.

(** ** [filter_fhir_by_patients.py]: the world the script runs in *)

(** A path is a directory and an entry name; [d / name] is [(d, name)]. *)
Definition path : Type := string * string.

Inductive exn :=
  | TypeError
  | ValueError
  | FileNotFoundError
  | PermissionError
  | AttributeError
  | TimeoutExpired
  | FileExistsError
  | NotADirectoryError.

Inductive level := INFO | WARNING | ERROR.

(** One constructor per [logger] call of the script.  Sizes, durations and
    the diagnostics printed by the external command are left out of the
    messages. *)
Inductive message :=
  | Initialized (patients : nat) (workers : Z)
  | CreatedTemporaryDirectory (d : string)
  | CleanedUpTemporaryDirectory (d : string)
  | FileNotFound (p : path)
  | GrepFailed (p : path)
  | GrepTimeout (p : path)
  | ErrorFiltering (p : path) (e : exn)
  | Processing (name : string)
  | RecordsFiltered (name : string) (count : nat)
  | NoMatchesFound (name : string)
  | NoNdjsonGzFiles
  | FoundFiles (n : nat) (workers : Z)
  | ErrorProcessing (name : string) (e : exn)
  | SummaryWritten (p : path)
  | ReadPatientIds (n : nat) (p : path)
  | NoPatientIds
  | Starting (patients : nat)
  | NoResourcesFound
  | Completed
  | FilteredTotal (n : nat)
  | FilesCopiedTo (d : string)
  | FilesAreIn (d : option string)
  | TemporaryDirectoryPreserved (d : option string).

(** The state a run reads and changes.  [temp_dir] is the attribute
    [self.temp_dir] of the run's [SimpleBatchFilter] instance. *)
Record world := World {
  files : gmap path string;
  unreadable : gset path;
  dirs : gset string;
  log : list (level * message);
  temp_dir : option string
}.

(** What the run does not control. *)
Record env := Env {
  zgrep_on_path : bool;
    (* whether [subprocess.run] finds the [zgrep] program *)
  mkdtemp_name : string;
    (* the directory that [tempfile.mkdtemp] creates *)
  cpu_count : nat;
  set_order : gset string -> list string;
    (* the order in which this process iterates over a set of strings *)
  completion_order : list path -> list path;
    (* the order in which the submitted tasks complete *)
  valid_in_locale : string -> bool;
    (* whether every byte of a text belongs to a character in the encoding
       of the locale, which the run and [grep] share *)
  grep_on_binary : list string -> string -> Z * string
    (* exit status and standard output of [grep -F] for patterns and input
       data that it takes for binary and in which a line is selected *)
}.

(** The attributes that [__init__] sets and no method changes. *)
Record SimpleBatchFilter := {
  patient_ids : gset string;
  fhir_dir : string;
  max_workers : Z
}.

Definition set_files (f : gmap path string -> gmap path string) (w : world)
  : world :=
  World (f (files w)) (unreadable w) (dirs w) (log w) (temp_dir w).
Definition set_dirs (f : gset string -> gset string) (w : world) : world :=
  World (files w) (unreadable w) (f (dirs w)) (log w) (temp_dir w).
Definition add_log (r : level * message) (w : world) : world :=
  World (files w) (unreadable w) (dirs w) (log w ++ [r]) (temp_dir w).
Definition set_temp_dir (d : option string) (w : world) : world :=
  World (files w) (unreadable w) (dirs w) (log w) d.

(** ** A state and exception monad for the script's statements *)

Inductive outcome (A : Type) :=
  | Ret (a : A)
  | Raise (e : exn).
Arguments Ret {A} a.
Arguments Raise {A} e.

Definition M (A : Type) : Type := world -> outcome A * world.

Definition ret {A} (a : A) : M A := fun w => (Ret a, w).
Definition raise {A} (e : exn) : M A := fun w => (Raise e, w).
Definition bind {A B} (m : M A) (k : A -> M B) : M B :=
  fun w =>
    match m w with
    | (Ret a, w') => k a w'
    | (Raise e, w') => (Raise e, w')
    end.

(** [try: m except ... as e: h e] *)
Definition try_except {A} (m : M A) (h : exn -> M A) : M A :=
  fun w =>
    match m w with
    | (Ret a, w') => (Ret a, w')
    | (Raise e, w') => h e w'
    end.

(** [try: m finally: f] *)
Definition try_finally {A} (m : M A) (f : M unit) : M A :=
  fun w =>
    match m w with
    | (r, w') =>
        match f w' with
        | (Ret _, w'') => (r, w'')
        | (Raise e, w'') => (Raise e, w'')
        end
    end.

Declare Scope py_scope.
Delimit Scope py_scope with py.
Notation "x <- m ;; k" := (bind m (fun x => k))
  (at level 90, m at level 89, k at level 200, right associativity,
   format "'[v' x  <-  m  ;; '/' k ']'") : py_scope.
Notation "m ;;; k" := (bind m (fun _ => k))
  (at level 90, k at level 200, right associativity,
   format "'[v' m  ;;; '/' k ']'") : py_scope.
Open Scope py_scope.

(** [for x in l: body x], threading an accumulator. *)
Fixpoint for_each {A B} (l : list A) (body : B -> A -> M B) (acc : B) : M B :=
  match l with
  | [] => ret acc
  | x :: xs => acc' <- body acc x ;; for_each xs body acc'
  end.

(** *** Primitive statements *)

Definition get {A} (f : world -> A) : M A := fun w => (Ret (f w), w).
Definition modify (f : world -> world) : M unit := fun w => (Ret tt, f w).

Definition logger (l : level) (m : message) : M unit := modify (add_log (l, m)).

(** [p.exists()] *)
Definition path_exists (p : path) : M bool :=
  get (fun w => bool_decide (is_Some (files w !! p))).

(** [open(p, "w")] followed by writing [text]: the directory must exist. *)
Definition write_text (p : path) (text : string) : M unit :=
  fun w =>
    if bool_decide (p.1 ∈ dirs w)
    then (Ret tt, set_files <[p := text]> w)
    else (Raise FileNotFoundError, w).

(** [f.write(text)] on a file that is open for writing. *)
Definition append_text (p : path) (text : string) : M unit :=
  modify (set_files (fun fs => <[p := default EmptyString (fs !! p) +:+ text]> fs)).

(** The whole text of [open(p, "r")]. *)
Definition read_text (p : path) : M string :=
  fun w =>
    match files w !! p with
    | None => (Raise FileNotFoundError, w)
    | Some text =>
        if bool_decide (p ∈ unreadable w) then (Raise PermissionError, w)
        else (Ret text, w)
    end.

(** [p.unlink()] *)
Definition unlink (p : path) : M unit :=
  fun w =>
    match files w !! p with
    | None => (Raise FileNotFoundError, w)
    | Some _ => (Ret tt, set_files (delete p) w)
    end.

(** [if p.exists(): p.unlink()] *)
Definition unlink_if_exists (p : path) : M unit :=
  b <- path_exists p ;; if b then unlink p else ret tt.

(** [d / name], which raises [TypeError] when [d] is [None]. *)
Definition truediv (d : option string) (name : string) : M path :=
  match d with
  | Some d => ret (d, name)
  | None => raise TypeError
  end.

(** [d.glob(...)] on the attribute [d], which raises [AttributeError] when
    [d] is [None]. *)
Definition deref (d : option string) : M string :=
  match d with
  | Some d => ret d
  | None => raise AttributeError
  end.

(** The directory [x] is [d] or lies below it.  Directories are named by
    paths in the normal form of [pathlib], one name for each: what lies
    below [d] begins with [d] and a slash; below the root lies what begins
    with a slash, and below the current directory every relative path. *)
Definition inside (d x : string) : bool :=
  String.eqb x d
  || (if String.eqb d "." then negb (Py.startswith "/" x)
      else Py.startswith (if Py.endswith "/" d then d else d +:+ "/") x).

(** A path given as one string, in the normal form of [pathlib], cut at
    its last slash. *)
Fixpoint cut_at_last_slash (s : string) : option (string * string) :=
  match s with
  | EmptyString => None
  | String c s' =>
      match cut_at_last_slash s' with
      | Some (before, after) => Some (String c before, after)
      | None =>
          if Ascii.eqb c "/"%char then Some (EmptyString, s') else None
      end
  end.

(** The directory that holds [d]; [None] when it is the current directory
    or the root, which exist. *)
Definition parent_dir (d : string) : option string :=
  match cut_at_last_slash d with
  | None | Some (EmptyString, _) => None
  | Some (before, _) => Some before
  end.

(** [d] read as the path of an entry: its directory and its name. *)
Definition as_entry (d : string) : path :=
  match cut_at_last_slash d with
  | None => (".", d)
  | Some (EmptyString, name) => ("/", name)
  | Some (before, name) => (before, name)
  end.

(** The directories above [d], nearest first. *)
Fixpoint ancestors_from (fuel : nat) (d : string) : list string :=
  match fuel with
  | O => []
  | S k =>
      match parent_dir d with
      | Some p => p :: ancestors_from k p
      | None => []
      end
  end.

Definition ancestors (d : string) : list string :=
  ancestors_from (String.length d) d.

(** A regular file lies at [d]. *)
Definition is_file (w : world) (d : string) : bool :=
  bool_decide (is_Some (files w !! as_entry d)).

(** [Path(d).mkdir(exist_ok=True)]: nothing happens when the directory
    exists, and it is created when the directory that holds it exists; a
    regular file in its place, a regular file above it or a missing parent
    make [os.mkdir] fail. *)
Definition mkdir_exist_ok (d : string) : M unit :=
  fun w =>
    if bool_decide (d ∈ dirs w) then (Ret tt, w)
    else if is_file w d then (Raise FileExistsError, w)
    else
      match parent_dir d with
      | Some p =>
          if bool_decide (p ∈ dirs w)
          then (Ret tt, set_dirs (union {[d]}) w)
          else if existsb (is_file w) (ancestors d)
               then (Raise NotADirectoryError, w)
               else (Raise FileNotFoundError, w)
      | None => (Ret tt, set_dirs (union {[d]}) w)
      end.

(** [d.glob("*" + suffix)]: the entries of [d] whose name ends in [suffix]. *)
Definition glob_files (fs : gmap path string) (d : string) (suffix : string)
  : list path :=
  filter (fun p => p.1 = d ∧ Py.endswith suffix p.2 = true)
         (elements (dom fs)).

Definition glob (d : string) (suffix : string) : M (list path) :=
  get (fun w => glob_files (files w) d suffix).

(** ** The external matcher *)

(** The lines of a text for [grep]: separated by line feeds, the last one
    terminated or not. *)
Fixpoint lines_lf (s : string) : list string :=
  match s with
  | EmptyString => []
  | String c s' =>
      if Ascii.eqb c Py.LF then EmptyString :: lines_lf s'
      else
        match lines_lf s' with
        | [] => [String c EmptyString]
        | l :: ls => String c l :: ls
        end
  end.

(** Each line followed by a line feed. *)
Definition unlines (ls : list string) : string :=
  foldr (fun l rest => l +:+ String Py.LF rest) EmptyString ls.

(** [grep -F]: the lines that contain one of the patterns. *)
Definition line_matches (patterns : list string) (line : string) : bool :=
  existsb (fun p => Py.contains p line) patterns.

Definition grep_F (patterns : list string) (text : string) : list string :=
  List.filter (line_matches patterns) (lines_lf text).

(** Whether [grep] takes [text] for text: it holds no NUL byte, and each
    of its bytes belongs to a character of the locale. *)
Definition text_for_grep (E : env) (text : string) : bool :=
  negb (Py.contains (String Py.NUL EmptyString) text)
  && valid_in_locale E text.

(** [grep -F] with the patterns [patterns] on the data [text]: exit status
    and standard output.  No line selected gives status 1 and no output,
    for text and for binary data alike.  With a line selected, text gives
    status 0 and the selected lines; binary data gives what this [grep]
    does with it (GNU grep from 3.5 on writes the lines that precede the
    binary data, which are none for a small file, and a notice on standard
    error; older ones write the notice on standard output). *)
Definition grep_run (E : env) (patterns : list string) (text : string)
  : Z * string :=
  match grep_F patterns text with
  | [] => (1%Z, EmptyString)
  | selected =>
      if text_for_grep E text then (0%Z, unlines selected)
      else grep_on_binary E patterns text
  end.

(** [zgrep -F -f pattern_file input_file]: exit status and standard output. *)
Definition zgrep_F (E : env) (pattern_file input_file : path) (w : world)
  : Z * string :=
  match files w !! pattern_file, files w !! input_file with
  | Some pats, Some text =>
      if bool_decide (input_file ∈ unreadable w) then (2%Z, EmptyString)
      else grep_run E (lines_lf pats) text
  | _, _ => (2%Z, EmptyString)
  end.

(** ** [class SimpleBatchFilter] *)

Section Script.

Variable E : env.

(** [subprocess.run(["zgrep", "-F", "-f", pattern_file, input_file],
    stdout=out_f, ...)] with [out_f] open on [stdout_file]; the result is
    the return code.  No [timeout] is passed, so [TimeoutExpired] is never
    raised. *)
Definition subprocess_run_zgrep (pattern_file input_file stdout_file : path)
  : M Z :=
  fun w =>
    if zgrep_on_path E then
      let '(returncode, out) := zgrep_F E pattern_file input_file w in
      (Ret returncode,
       set_files (fun fs => <[stdout_file := default EmptyString (fs !! stdout_file) +:+ out]> fs) w)
    else (Raise FileNotFoundError, w).

(** [max_workers or max(1, multiprocessing.cpu_count() - 1)] *)
Definition workers_or_default (workers : option Z) : Z :=
  match workers with
  | Some n =>
      if bool_decide (n = 0%Z) then Z.of_nat (Nat.max 1 (cpu_count E - 1))
      else n
  | None => Z.of_nat (Nat.max 1 (cpu_count E - 1))
  end.

(** [__init__] *)
Definition init (ids : list string) (dir : string) (workers : option Z)
  : M SimpleBatchFilter :=
  let self :=
    {| patient_ids := list_to_set ids;
       fhir_dir := dir;
       max_workers := workers_or_default workers |} in
  modify (set_temp_dir None) ;;;
  logger INFO (Initialized (length ids) (max_workers self)) ;;;
  ret self.

Definition create_temp_directory (self : SimpleBatchFilter) : M string :=
  let d := mkdtemp_name E in
  modify (set_dirs (union {[d]})) ;;;
  modify (set_temp_dir (Some d)) ;;;
  logger INFO (CreatedTemporaryDirectory d) ;;;
  ret d.

(** [shutil.rmtree(d)]: the directory goes with everything in it and
    below it. *)
Definition rmtree (d : string) : M unit :=
  modify (set_files (filter (fun kv => inside d kv.1.1 = false))) ;;;
  modify (set_dirs (filter (fun x => inside d x = false))).

Definition cleanup_temp_directory (self : SimpleBatchFilter) : M unit :=
  t <- get temp_dir ;;
  match t with
  | Some d =>
      present <- get (fun w => bool_decide (d ∈ dirs w)) ;;
      if present
      then rmtree d ;;; logger INFO (CleanedUpTemporaryDirectory d)
      else ret tt
  | None => ret tt
  end.

Definition pattern_name (input_name : string) : string :=
  "patterns_" +:+ Py.stem input_name +:+ ".txt".

Definition grep_filter_file (self : SimpleBatchFilter)
    (input_file output_file : path) (patterns : list string) : M nat :=
  present <- path_exists input_file ;;
  if negb present then
    logger WARNING (FileNotFound input_file) ;;;
    ret 0
  else
    try_except
      ((* Create pattern file *)
       t <- get temp_dir ;;
       pattern_file <- truediv t (pattern_name input_file.2) ;;
       write_text pattern_file EmptyString ;;;
       for_each patterns
         (fun _ pattern => append_text pattern_file (pattern +:+ String Py.LF EmptyString))
         tt ;;;
       (* Use grep to filter and write directly to output *)
       write_text output_file EmptyString ;;;
       returncode <- subprocess_run_zgrep pattern_file input_file output_file ;;
       (* Clean up pattern file *)
       unlink pattern_file ;;;
       if bool_decide (returncode = 0%Z) then
         text <- read_text output_file ;;
         ret (length (Py.text_lines text))
       else if bool_decide (returncode = 1%Z) then
         unlink_if_exists output_file ;;;
         ret 0
       else
         logger WARNING (GrepFailed input_file) ;;;
         unlink_if_exists output_file ;;;
         ret 0)
      (fun e =>
         match e with
         | TimeoutExpired =>
             logger ERROR (GrepTimeout input_file) ;;;
             unlink_if_exists output_file ;;;
             ret 0
         | _ =>
             logger ERROR (ErrorFiltering input_file e) ;;;
             unlink_if_exists output_file ;;;
             ret 0
         end).

(** Create output filename (remove .gz extension) *)
Definition output_name (input_name : string) : string :=
  Py.replace ".gz" EmptyString input_name.

Definition filter_single_file (self : SimpleBatchFilter)
    (fhir_file : path) (patterns : list string) : M (option path * nat) :=
  present <- path_exists fhir_file ;;
  if negb present then
    logger WARNING (FileNotFound fhir_file) ;;;
    ret (None, 0)
  else
    logger INFO (Processing fhir_file.2) ;;;
    t <- get temp_dir ;;
    output_file <- truediv t (output_name fhir_file.2) ;;
    count <- grep_filter_file self fhir_file output_file patterns ;;
    (if 0 <? count
     then logger INFO (RecordsFiltered fhir_file.2 count)
     else logger INFO (NoMatchesFound fhir_file.2)) ;;;
    ret (Some output_file, count).

(** One iteration of [for future in as_completed(future_to_file)]: the
    task of [fhir_file] runs, and its result or its exception is handled. *)
Definition collect (self : SimpleBatchFilter) (patterns : list string)
    (total_filtered : nat) (fhir_file : path) : M nat :=
  try_except
    (r <- filter_single_file self fhir_file patterns ;;
     ret (total_filtered + r.2))
    (fun e =>
       logger ERROR (ErrorProcessing fhir_file.2 e) ;;;
       ret total_filtered).

(** The statements of [filter_all_files] that follow the creation of the
    temporary directory. *)
Definition filter_found_files (self : SimpleBatchFilter) : M nat :=
  (* Get all NDJSON files in the fhir directory *)
  fhir_files <- glob (fhir_dir self) ".ndjson.gz" ;;
  if fhir_files is [] then
    logger ERROR NoNdjsonGzFiles ;;;
    ret 0
  else
    logger INFO (FoundFiles (length fhir_files) (max_workers self)) ;;;
    let patterns := set_order E (patient_ids self) in
    (* ThreadPoolExecutor(max_workers=...) *)
    if bool_decide (max_workers self ≤ 0)%Z then raise ValueError
    else for_each (completion_order E fhir_files) (collect self patterns) 0.

Definition filter_all_files (self : SimpleBatchFilter) : M nat :=
  t <- get temp_dir ;;
  (if t is None then create_temp_directory self ;;; ret tt else ret tt) ;;;
  filter_found_files self.

(** The text written before the per-file lines of the summary. *)
Definition summary_header (self : SimpleBatchFilter) : string :=
  "SIMPLE BATCH FILTERING SUMMARY" +:+ String Py.LF EmptyString
  +:+ Py.repeat_char "="%char 40 +:+ String Py.LF (String Py.LF EmptyString)
  +:+ "Target patients: " +:+ Py.str (size (patient_ids self))
  +:+ String Py.LF EmptyString
  +:+ "Patient IDs: "
  +:+ Py.join ", " (Py.sorted (take 5 (set_order E (patient_ids self))))
  +:+ (if 5 <? size (patient_ids self) then "..." else EmptyString)
  +:+ String Py.LF (String Py.LF EmptyString).

Definition summary_line (name : string) (count : nat) : string :=
  Py.ljust 40 name +:+ " " +:+ Py.rjust 8 (Py.str count) +:+ " resources"
  +:+ String Py.LF EmptyString.

Definition create_summary (self : SimpleBatchFilter) (total_filtered : nat)
  : M unit :=
  t <- get temp_dir ;;
  summary_file <- truediv t "SUMMARY.txt" ;;
  write_text summary_file EmptyString ;;;
  append_text summary_file (summary_header self) ;;;
  ndjson_files <- glob summary_file.1 ".ndjson" ;;
  total_resources <-
    for_each (Py.sorted (map snd ndjson_files))
      (fun total_resources name =>
         text <- read_text (summary_file.1, name) ;;
         let count := length (Py.text_lines text) in
         append_text summary_file (summary_line name count) ;;;
         ret (total_resources + count))
      0 ;;
  append_text summary_file
    (Py.repeat_char "-"%char 50 +:+ String Py.LF EmptyString
     +:+ summary_line "TOTAL" total_resources) ;;;
  logger INFO (SummaryWritten summary_file).

(** ** Module-level functions *)

(** The test of the loop of [read_patient_list], on a stripped line. *)
Definition keep_id (patient_id : string) : bool :=
  negb (String.eqb patient_id EmptyString)
  && negb (Py.startswith "#" patient_id).

(** The loop of [read_patient_list] over the lines of the file. *)
Definition ids_of_lines (lines : list string) : list string :=
  List.filter keep_id (map Py.strip lines).

Definition read_patient_list (filepath : path) : M (list string) :=
  text <- read_text filepath ;;
  ret (ids_of_lines (Py.text_lines text)).

(** The parsed command line.  [argparse] makes [patient_list] and
    [patients] mutually exclusive and requires one of them; [patients] has
    [nargs="+"].  An option that was not given, or given as the empty
    string, is [None].  [output_dir] holds the path in the normal form
    that [Path(args.output_dir)] gives it. *)
Record args := {
  patient_list : option path;
  patients : option (list string);
  arg_fhir_dir : string;
  keep_temp : bool;
  output_dir : option string;
  threads : option Z
}.

(** [shutil.copy2(src, d)] *)
Definition copy2 (src : path) (d : string) : M unit :=
  text <- read_text src ;;
  write_text (d, src.2) text.

(** The statements of [main] under [# Get patient IDs]. *)
Definition get_patient_ids (a : args) : M (option (list string)) :=
  match patient_list a with
  | Some p =>
      l <- read_patient_list p ;;
      logger INFO (ReadPatientIds (length l) p) ;;;
      ret (Some l)
  | None => ret (patients a)
  end.

(** The statements of [main] that follow [filter_all_files] inside
    [try]. *)
Definition main_report (a : args) (filter_instance : SimpleBatchFilter)
    (total_filtered : nat) : M unit :=
  if bool_decide (total_filtered = 0) then
    logger WARNING NoResourcesFound
  else
    (* Create summary *)
    create_summary filter_instance total_filtered ;;;
    logger INFO Completed ;;;
    logger INFO (FilteredTotal total_filtered) ;;;
    t <- get temp_dir ;;
    match output_dir a with
    | Some output_path =>
        (* Copy to output directory if specified *)
        mkdir_exist_ok output_path ;;;
        d <- deref t ;;
        ndjson_files <- glob d ".ndjson" ;;
        for_each ndjson_files (fun _ f => copy2 f output_path) tt ;;;
        present <- path_exists (d, "SUMMARY.txt") ;;
        (if present then copy2 (d, "SUMMARY.txt") output_path
         else ret tt) ;;;
        logger INFO (FilesCopiedTo output_path)
    | None =>
        logger INFO (FilesAreIn t)
    end.

(** The statements of [main] inside [try]. *)
Definition main_try (a : args) (filter_instance : SimpleBatchFilter)
  : M unit :=
  (* Filter resources *)
  total_filtered <- filter_all_files filter_instance ;;
  main_report a filter_instance total_filtered.

(** The statements of [main] inside [finally]. *)
Definition main_finally : M unit :=
  (* Always preserve temp directory for inspection *)
  t <- get temp_dir ;;
  logger INFO (TemporaryDirectoryPreserved t).

Definition main (a : args) : M unit :=
  ids <- get_patient_ids a ;;
  match ids with
  | None | Some [] =>
      logger ERROR NoPatientIds
  | Some ids =>
      logger INFO (Starting (length ids)) ;;;
      (* Create filter instance *)
      filter_instance <- init ids (arg_fhir_dir a) (threads a) ;;
      try_finally (main_try a filter_instance) main_finally
  end.

End Script.

(** ** Notions used to state the properties *)

(** [c in s] for a single character [c]. *)
Fixpoint has_char (c : ascii) (s : string) : bool :=
  match s with
  | EmptyString => false
  | String c' s' => Ascii.eqb c' c || has_char c s'
  end.



(** What [grep_filter_file] writes into the pattern file. *)
Definition pattern_file_text (patterns : list string) : string :=
  unlines patterns.

(** The lines that the matcher selects from [text] when it is given the
    pattern file written for [patterns]. *)
Definition selected_lines (patterns : list string) (text : string)
  : list string :=
  grep_F (lines_lf (pattern_file_text patterns)) text.

(** The number that [sum(1 for _ in f)] yields on the output file. *)
Definition counted_lines (patterns : list string) (text : string) : nat :=
  length (Py.text_lines (unlines (selected_lines patterns text))).

(** What the task of [f] adds to the total when it runs in a world where
    the file is as in [w]: nothing for a file that is missing or cannot be
    read, the number of counted lines otherwise. *)
Definition expected_count (patterns : list string) (w : world) (f : path)
  : nat :=
  match files w !! f with
  | None => 0
  | Some text =>
      if bool_decide (f ∈ unreadable w) then 0
      else counted_lines patterns text
  end.

(** The files after [grep_filter_file] has run the matcher: the pattern
    file is gone, and the output file holds the selected lines or, when
    the matcher failed or selected nothing, is gone too. *)
Definition files_after_grep (pattern_file output_file : path)
    (patterns : list string) (text : string) (failed : bool)
    (fs : gmap path string) : gmap path string :=
  if failed then delete output_file (delete pattern_file fs)
  else
    match selected_lines patterns text with
    | [] => delete output_file (delete pattern_file fs)
    | sel => <[output_file := unlines sel]> (delete pattern_file fs)
    end.

(** What the matcher answers when [grep_filter_file] runs it for the
    identifiers [patterns] on a source with the text [text]: status 2 when
    the source cannot be read ([failed]). *)
Definition matcher_answer (E : env) (patterns : list string) (text : string)
    (failed : bool) : Z * string :=
  if failed then (2%Z, EmptyString)
  else grep_run E (lines_lf (pattern_file_text patterns)) text.

(** The count that [grep_filter_file] returns when the matcher has
    answered [r]: the lines of the output file on status 0. *)
Definition count_of_answer (r : Z * string) : nat :=
  if bool_decide (r.1 = 0%Z) then length (Py.text_lines r.2) else 0.

(** The files after [grep_filter_file] when the matcher has answered [r]:
    the pattern file is gone, and the output file holds what the matcher
    wrote on status 0 and is gone otherwise. *)
Definition files_after_answer (pattern_file output_file : path)
    (r : Z * string) (fs : gmap path string) : gmap path string :=
  if bool_decide (r.1 = 0%Z)
  then <[output_file := r.2]> (delete pattern_file fs)
  else delete output_file (delete pattern_file fs).

(** [grep] treats the source as text for these identifiers: it takes the
    text for text, or selects no line of it. *)
Definition read_as_text (E : env) (patterns : list string) (text : string)
  : Prop :=
  text_for_grep E text = true \/ selected_lines patterns text = [].

(** What the task of [f] adds to the total in the environment [E]. *)
Definition actual_count (E : env) (patterns : list string) (w : world)
    (f : path) : nat :=
  match files w !! f with
  | None => 0
  | Some text =>
      count_of_answer
        (matcher_answer E patterns text (bool_decide (f ∈ unreadable w)))
  end.

(** The conditions under which a task can do its work: the matcher can be
    started, the arena directory [d] exists and is the instance's
    [temp_dir], and the files that cannot be read lie outside of it. *)
Definition arena_ready (E : env) (d : string) (w : world) : Prop :=
  zgrep_on_path E = true /\ temp_dir w = Some d /\ d ∈ dirs w
  /\ forall p : path, p ∈ unreadable w -> p.1 ≠ d.

(** [w'] has the files of [w] outside of the directory [d]. *)
Definition same_inputs (d : string) (w w' : world) : Prop :=
  unreadable w' = unreadable w
  /\ forall p : path, p.1 ≠ d -> files w' !! p = files w !! p.

(** A source file as [filter_all_files] finds it: outside of the arena,
    with a name that ends in [.ndjson.gz]. *)
Definition source_file (d : string) (f : path) : Prop :=
  f.1 ≠ d /\ Py.endswith ".ndjson.gz" f.2 = true.

(** The directory [d] exists, or [os.mkdir] can create it: no regular file
    is in its place and the directory that holds it exists. *)
Definition dir_available (w : world) (d : string) : Prop :=
  d ∈ dirs w
  \/ (is_file w d = false
      /\ match parent_dir d with Some p => p ∈ dirs w | None => True end).

(** Every run of [m] leads from a world to one that is [R]-related to it,
    whatever the outcome. *)
Definition keeps (R : relation world) {A} (m : M A) : Prop :=
  forall w, R w (m w).2.

(** No directory is removed and [self.temp_dir] is not reassigned. *)
Definition arena_kept (w w' : world) : Prop :=
  dirs w ⊆ dirs w' /\ temp_dir w' = temp_dir w.

(** The log of [w'] extends the log of [w] by records below the level
    [ERROR]. *)
Definition no_error_logged (w w' : world) : Prop :=
  exists added, log w' = log w ++ added /\ Forall (fun r => r.1 ≠ ERROR) added.

(** [a] with the option [--keep-temp] set to [b]. *)
Definition with_keep_temp (b : bool) (a : args) : args :=
  {| patient_list := patient_list a;
     patients := patients a;
     arg_fhir_dir := arg_fhir_dir a;
     keep_temp := b;
     output_dir := output_dir a;
     threads := threads a |}.

(** The double quote character, for JSON records. *)
Definition dq : string := String "034"%char EmptyString.

(** The record [{"subject":"id"}]. *)
Definition subject_record (id : string) : string :=
  "{" +:+ dq +:+ "subject" +:+ dq +:+ ":" +:+ dq +:+ id +:+ dq +:+ "}".


(** The instance that [main] creates for the identifiers [ids]. *)
Definition filter_of_args (E : env) (a : args) (ids : list string)
  : SimpleBatchFilter :=
  {| patient_ids := list_to_set ids;
     fhir_dir := arg_fhir_dir a;
     max_workers := workers_or_default E (threads a) |}.

(** ** Sample data *)

Definition nl : string := String Py.LF EmptyString.

(** An environment in which the matcher is installed, sets are iterated in
    the order of [elements], and tasks complete in submission order; every
    byte is a character of the locale, and [grep] writes nothing on
    standard output for binary data. *)
Definition sample_env : env :=
  {| zgrep_on_path := true;
     mkdtemp_name := "/tmp/simple_batch_k3x9";
     cpu_count := 4;
     set_order := elements;
     completion_order := fun l => l;
     valid_in_locale := fun _ => true;
     grep_on_binary := fun _ _ => (0%Z, EmptyString) |}.

(** The same environment without the matcher. *)
Definition env_without_zgrep : env :=
  {| zgrep_on_path := false;
     mkdtemp_name := mkdtemp_name sample_env;
     cpu_count := cpu_count sample_env;
     set_order := set_order sample_env;
     completion_order := completion_order sample_env;
     valid_in_locale := valid_in_locale sample_env;
     grep_on_binary := grep_on_binary sample_env |}.

(** The same environment with sets iterated in the opposite order. *)
Definition env_other_seed : env :=
  {| zgrep_on_path := zgrep_on_path sample_env;
     mkdtemp_name := mkdtemp_name sample_env;
     cpu_count := cpu_count sample_env;
     set_order := fun X => reverse (elements X);
     completion_order := completion_order sample_env;
     valid_in_locale := valid_in_locale sample_env;
     grep_on_binary := grep_on_binary sample_env |}.

Definition sample_text : string :=
  subject_record "P001" +:+ nl +:+ subject_record "P999" +:+ nl
  +:+ subject_record "P002" +:+ nl.

Definition sample_filter (ids : list string) : SimpleBatchFilter :=
  {| patient_ids := list_to_set ids; fhir_dir := "fhir"; max_workers := 3 |}.

(** A world in the middle of a run: the arena exists, the source directory
    holds one file [name] with the text [text]. *)
Definition world_with (name text : string) : world :=
  {| files := {[ ("fhir", name) := text ]};
     unreadable := ∅;
     dirs := {[ "fhir"; "arena" ]};
     log := [];
     temp_dir := Some "arena" |}.

(** A world before a run: the source directory holds one file. *)
Definition world_before (name text : string) : world :=
  {| files := {[ ("fhir", name) := text ]};
     unreadable := ∅;
     dirs := {[ "fhir" ]};
     log := [];
     temp_dir := None |}.

(** The sample identifier file: [P001], a blank line, a comment. *)
Definition sample_id_file : string :=
  "P001" +:+ nl +:+ nl +:+ "# comment" +:+ nl.

(** A world before a run that also holds the identifier file. *)
Definition world_with_id_file (ids_text : string) : world :=
  {| files := {[ ("fhir", "TypeA.ndjson.gz") := sample_text;
                 (".", "ids.txt") := ids_text ]};
     unreadable := ∅;
     dirs := {[ "fhir"; "." ]};
     log := [];
     temp_dir := None |}.

(** Command lines: identifiers given as arguments, or as a file. *)
Definition args_with_patients (ids : list string) : args :=
  {| patient_list := None;
     patients := Some ids;
     arg_fhir_dir := "fhir";
     keep_temp := false;
     output_dir := None;
     threads := None |}.

Definition args_with_patient_list (p : path) : args :=
  {| patient_list := Some p;
     patients := None;
     arg_fhir_dir := "fhir";
     keep_temp := false;
     output_dir := None;
     threads := None |}.

(** ** Further notions *)


(** [l] is in ascending code-point order. *)
Fixpoint ascending (l : list string) : Prop :=
  match l with
  | [] => True
  | x :: l' =>
      match l' with
      | [] => True
      | y :: _ => String.leb x y = true
      end /\ ascending l'
  end.

(** [a] with the option [--threads] set to [t]. *)
Definition with_threads (t : option Z) (a : args) : args :=
  {| patient_list := patient_list a;
     patients := patients a;
     arg_fhir_dir := arg_fhir_dir a;
     keep_temp := keep_temp a;
     output_dir := output_dir a;
     threads := t |}.

(** The number that [sum(1 for _ in rf)] yields on the file [p] of [w]. *)
Definition line_count (w : world) (p : path) : nat :=
  length (Py.text_lines (default EmptyString (files w !! p))).

(** [names] lists, in ascending order and once each, the entries of the
    directory [d] of [w] whose name ends in [suffix]. *)
Definition sorted_entries (w : world) (d suffix : string)
    (names : list string) : Prop :=
  ascending names /\ NoDup names
  /\ forall name,
       name ∈ names
       <-> is_Some (files w !! ((d, name) : path))
           /\ Py.endswith suffix name = true.

(** The per-file lines of the summary for the files [names] of [d]. *)
Definition summary_lines (w : world) (d : string) (names : list string)
  : string :=
  foldr (fun name rest => summary_line name (line_count w (d, name)) +:+ rest)
        EmptyString names.

(** The text of [SUMMARY.txt] for the files [names] of [d]. *)
Definition summary_text (E : env) (self : SimpleBatchFilter) (w : world)
    (d : string) (names : list string) : string :=
  summary_header E self +:+ summary_lines w d names
  +:+ Py.repeat_char "-"%char 50 +:+ nl
  +:+ summary_line "TOTAL"
        (sum_list (map (fun name => line_count w (d, name)) names)).

(** A command line with identifiers given as arguments and [--output-dir]. *)
Definition args_with_output_dir (ids : list string) (out : string) : args :=
  {| patient_list := None;
     patients := Some ids;
     arg_fhir_dir := "fhir";
     keep_temp := false;
     output_dir := Some out;
     threads := None |}.

(** A world after the tasks: the arena holds one filtered file. *)
Definition world_after_tasks : world :=
  {| files := {[ ("fhir", "TypeA.ndjson.gz") := sample_text;
                 ("arena", "TypeA.ndjson") := subject_record "P001" +:+ nl ]};
     unreadable := ∅;
     dirs := {[ "fhir"; "arena" ]};
     log := [];
     temp_dir := Some "arena" |}.



(** ** [bulk_import.py]: the files on offer and the import job *)

Module Importer.

(** What [os.path.exists] and [os.listdir] find at [./fhir]: nothing, a
    directory with its entries in the order in which the system lists
    them, or an entry that exists and cannot be listed, with the text of
    the exception. *)
Inductive fhir_dir_state :=
  | Absent
  | Listed (entries : list string)
  | NotListable (e : string).

(** [f.endswith(('.ndjson', '.ndjson.gz')) and not f.startswith('.')] *)
Definition is_ndjson_name (f : string) : bool :=
  (Py.endswith ".ndjson" f || Py.endswith ".ndjson.gz" f)
  && negb (Py.startswith "." f).

(** [get_available_files]: the lines printed and the list returned. *)
Definition get_available_files (st : fhir_dir_state)
  : list string * list string :=
  match st with
  | Listed entries => ([], Py.sorted (List.filter is_ndjson_name entries))
  | Absent =>
      (["Warning: Local fhir directory not found at ./fhir"], [])
  | NotListable e => (["Error getting file list: " +:+ e], [])
  end.

(** [s.split(sep)] for a one-character separator. *)
Fixpoint split (sep : ascii) (s : string) : list string :=
  match s with
  | EmptyString => [EmptyString]
  | String c s' =>
      if Ascii.eqb c sep then EmptyString :: split sep s'
      else
        match split sep s' with
        | [] => [String c EmptyString]
        | x :: xs => String c x :: xs
        end
  end.

(** [s.rstrip('/')] *)
Fixpoint rstrip_slash (s : string) : string :=
  match s with
  | EmptyString => EmptyString
  | String c s' =>
      match rstrip_slash s' with
      | EmptyString =>
          if Ascii.eqb c "/"%char then EmptyString else String c EmptyString
      | r => String c r
      end
  end.

(** The attributes of a [FHIRBulkImporter] that the methods read. *)
Record FHIRBulkImporter := {
  fhir_base_url : string;
  file_server_url : string
}.

(** [__init__] *)
Definition init (fhir_base_url file_server_url : string) : FHIRBulkImporter :=
  {| fhir_base_url := rstrip_slash fhir_base_url;
     file_server_url := rstrip_slash file_server_url |}.

(** JSON values as far as the request needs them. *)
#[local] Unset Elimination Schemes.
Inductive json :=
  | JString (s : string)
  | JArray (items : list json)
  | JObject (members : list (string * json)).
#[local] Set Elimination Schemes.

(** An element of [input_files]: a dict with the keys [type] and [url]. *)
Record input_file := {
  file_type : string;
  file_url : string
}.

(** The dict appended to [import_request["parameter"]] for one file. *)
Definition input_parameter (f : input_file) : json :=
  JObject
    [("name", JString "input");
     ("part",
      JArray
        [JObject [("name", JString "type");
                  ("valueCode", JString (file_type f))];
         JObject [("name", JString "url");
                  ("valueUri", JString (file_url f))]])].

(** The three parameters that [import_request] starts with. *)
Definition fixed_parameters (self : FHIRBulkImporter) : list json :=
  [JObject [("name", JString "inputFormat");
            ("valueCode", JString "application/fhir+ndjson")];
   JObject [("name", JString "inputSource");
            ("valueUri", JString (file_server_url self))];
   JObject [("name", JString "storageDetail");
            ("part",
             JArray [JObject [("name", JString "type");
                              ("valueCode", JString "https")]])]].

(** [import_request] after the loop [for input_file in input_files] has
    appended to its [parameter] list. *)
Definition import_request (self : FHIRBulkImporter)
    (input_files : list input_file) : json :=
  JObject
    [("resourceType", JString "Parameters");
     ("parameter",
      JArray
        (fold_left (fun parameter f => parameter ++ [input_parameter f])
           input_files (fixed_parameters self)))].

(** What the method reads of the response to the POST request. *)
Record response := {
  status_code : Z;
  content_location : option string   (* [headers.get('Content-Location')] *)
}.

(** [create_import_job]; [post url body] is
    [self.session.post(url, json=body, headers=...)], which answers or
    raises ([None]).  Printing is left out. *)
Definition create_import_job (self : FHIRBulkImporter)
    (input_files : list input_file)
    (post : string -> json -> option response) : option string :=
  let import_url := fhir_base_url self +:+ "/$import" in
  match post import_url (import_request self input_files) with
  | None => None
  | Some r =>
      if bool_decide (status_code r = 202%Z) then
        match content_location r with
        | None | Some EmptyString => None
        | Some content_location =>
            Some (List.last (split "/" content_location) EmptyString)
        end
      else None
  end.

End Importer.

(** ** [fhir_file_server.py] *)

Module FileServer.

(** What a request handler does that can be observed from outside: its log
    records, its calls of the methods of the base class, its accesses to
    the file system and its writes to the connection, in order. *)
Inductive event :=
  | LoggingInfo (msg : string)
  | LoggingError (msg : string)
  | SendError (code : nat) (message : string)
  | SendResponse (code : nat)
  | SendHeader (keyword value : string)
  | SuperEndHeaders
  | PathExists (path : string)
  | PathIsFile (path : string)
  | GetSize (path : string)
  | Open (path : string)
  | Write (chunk : string).

(** What the file system holds at a path: a directory, or a regular file
    with its bytes and, when [open] fails on it, the text of the
    exception. *)
Inductive node :=
  | Directory
  | RegularFile (content : string) (open_error : option string).

(** [s.lstrip('/')] *)
Fixpoint lstrip_slash (s : string) : string :=
  match s with
  | EmptyString => EmptyString
  | String c s' => if Ascii.eqb c "/"%char then lstrip_slash s' else s
  end.

(** [os.path.join(a, b)] on a POSIX system. *)
Definition os_path_join (a b : string) : string :=
  if Py.startswith "/" b then b
  else if String.eqb a EmptyString || Py.endswith "/" a then a +:+ b
  else a +:+ "/" +:+ b.

(** [f.read(n)]: the bytes read and the bytes that remain. *)
Fixpoint read (n : nat) (s : string) : string * string :=
  match n, s with
  | S k, String c s' =>
      let '(chunk, rest) := read k s' in (String c chunk, rest)
  | _, _ => (EmptyString, s)
  end.

Definition chunk_size : nat := 8 * 1024.

(** The loop [while True: chunk = f.read(8192) ...] on the bytes that
    remain; [fuel] bounds the number of iterations. *)
Fixpoint send_chunks (fuel : nat) (remaining : string) : list event :=
  match fuel with
  | O => []
  | S k =>
      match read chunk_size remaining with
      | (EmptyString, _) => []
      | (chunk, rest) => Write chunk :: send_chunks k rest
      end
  end.

(** Each iteration but the last consumes a byte, so one more iteration
    than there are bytes is enough. *)
Definition send_file_content (content : string) : list event :=
  send_chunks (S (String.length content)) content.

(** The override of [end_headers]. *)
Definition end_headers : list event :=
  [SendHeader "Access-Control-Allow-Origin" "*";
   SendHeader "Access-Control-Allow-Methods" "GET, POST, OPTIONS";
   SendHeader "Access-Control-Allow-Headers" "Content-Type, Authorization";
   SendHeader "Cache-Control" "no-cache, no-store, must-revalidate";
   SendHeader "Pragma" "no-cache";
   SendHeader "Expires" "0";
   SuperEndHeaders].

Definition do_OPTIONS : list event :=
  SendResponse 200 :: end_headers.

Section Handler.

(** [urllib.parse.unquote], the first component of
    [mimetypes.guess_type], and the file system. *)
Variable unquote : string -> string.
Variable guess_type : string -> option string.
Variable node_at : string -> option node.

Definition do_GET (self_path : string) : list event :=
  LoggingInfo ("GET request for: " +:+ self_path) ::
  (* Decode the path *)
  let path := unquote (lstrip_slash self_path) in
  (* Security check - prevent directory traversal *)
  if Py.contains ".." path || Py.startswith "/" path then
    [SendError 403 "Forbidden"]
  else
    (* Build full file path *)
    let full_path := os_path_join "/app/fhir" path in
    PathExists full_path ::
    match node_at full_path with
    | None =>
        [LoggingError ("File not found: " +:+ full_path);
         SendError 404 "File not found"]
    | Some nd =>
        PathIsFile full_path ::
        match nd with
        | Directory => [SendError 403 "Not a file"]
        | RegularFile content open_error =>
            (* Determine content type *)
            let content_type :=
              if Py.endswith ".ndjson.gz" path || Py.endswith ".ndjson" path
              then "application/fhir+ndjson"
              else default "application/octet-stream" (guess_type full_path)
            in
            let content_encoding :=
              if Py.endswith ".ndjson.gz" path then Some "gzip" else None in
            let file_size := String.length content in
            [GetSize full_path;
             SendResponse 200;
             SendHeader "Content-Type" content_type;
             SendHeader "Content-Length" (Py.str file_size)]
            ++ match content_encoding with
               | Some e => [SendHeader "Content-Encoding" e]
               | None => []
               end
            ++ end_headers
            ++ Open full_path ::
               match open_error with
               | Some e =>
                   [LoggingError
                      ("Error serving file " +:+ path +:+ ": " +:+ e);
                    SendError 500 ("Internal server error: " +:+ e)]
               | None =>
                   send_file_content content
                   ++ [LoggingInfo
                         ("Successfully served: " +:+ path +:+ " ("
                          +:+ Py.str file_size +:+ " bytes)")]
               end
        end
    end.

End Handler.

(** The paths that a trace touches in the file system. *)
Definition touched (tr : list event) : list string :=
  omap (fun e =>
          match e with
          | PathExists p | PathIsFile p | GetSize p | Open p => Some p
          | _ => None
          end) tr.

(** The bytes that a trace writes to the connection, chunk by chunk. *)
Definition written (tr : list event) : list string :=
  omap (fun e => match e with Write chunk => Some chunk | _ => None end) tr.

(** The status codes that a trace sends, through [send_response] or
    [send_error], in order. *)
Definition statuses (tr : list event) : list nat :=
  omap (fun e =>
          match e with
          | SendResponse code | SendError code _ => Some code
          | _ => None
          end) tr.

(** The headers that a trace sends through [send_header]. *)
Definition headers (tr : list event) : list (string * string) :=
  omap (fun e =>
          match e with
          | SendHeader keyword value => Some (keyword, value)
          | _ => None
          end) tr.

(** A file system that holds one file below [/app/fhir]. *)
Definition sample_node_at (p : string) : option node :=
  if String.eqb p "/app/fhir/MimicPatient.ndjson"
  then Some (RegularFile "abc" None)
  else None.

End FileServer.

(** * Properties *)

(** ** Strings *)

#[local] Arguments String.append !s1 s2 : simpl nomatch.

Lemma append_nil_r (s : string) : s +:+ EmptyString = s.
Proof. induction s as [|c s IH]; simpl; [reflexivity | now rewrite IH]. Qed.

Lemma append_assoc (a b c : string) : (a +:+ b) +:+ c = a +:+ b +:+ c.
Proof. induction a as [|x a IH]; simpl; [reflexivity | now rewrite IH]. Qed.

Lemma length_append (a b : string) :
  String.length (a +:+ b) = String.length a + String.length b.
Proof. induction a as [|x a IH]; simpl; [reflexivity | now rewrite IH]. Qed.

Lemma startswith_spec (p s : string) :
  Py.startswith p s = true <-> exists b, s = p +:+ b.
Proof.
  revert s. induction p as [|c p IH]; intros s; simpl.
  - split; [intros _; now exists s | reflexivity].
  - destruct s as [|c' s].
    + split; [discriminate | intros [b Hb]; discriminate].
    + destruct (Ascii.eqb_spec c c') as [->|Hne].
      * simpl. rewrite IH. split; intros [b Hb]; exists b; congruence.
      * split; [discriminate | intros [b Hb]; congruence].
Qed.


Lemma endswith_spec (p s : string) :
  Py.endswith p s = true <-> exists a, s = a +:+ p.
Proof.
  induction s as [|c s IH]; simpl.
  - rewrite orb_false_r, String.eqb_eq. split.
    + intros ->. now exists EmptyString.
    + intros ([|x a] & Ha); simpl in Ha; [congruence|].
      discriminate.
  - rewrite orb_true_iff, String.eqb_eq, IH. split.
    + intros [-> | [a Ha]]; [now exists EmptyString|].
      exists (String c a). simpl. now rewrite Ha.
    + intros ([|x a] & Ha); simpl in Ha; [left; congruence|].
      right. exists a. congruence.
Qed.


(** *** Lines *)








(** *** File names *)

Lemma length_replace_from (old : string) (k : nat) (s : string) :
  String.length (Py.replace_from old EmptyString k s) <= String.length s.
Proof.
  revert k. induction s as [|c s IH]; intros k; simpl; [lia|].
  destruct k as [|k].
  - destruct (Py.startswith old (String c s)).
    + simpl. specialize (IH (String.length old - 1)). lia.
    + simpl. specialize (IH 0). lia.
  - specialize (IH k). lia.
Qed.

Lemma rfind_dot_gz (a : string) :
  Py.rfind_dot (a +:+ ".gz") = Some (String.length a).
Proof.
  induction a as [|c a IH]; simpl; [reflexivity | now rewrite IH].
Qed.

Lemma substring_prefix (a b : string) :
  String.substring 0 (String.length a) (a +:+ b) = a.
Proof.
  induction a as [|c a IH]; simpl.
  - now destruct b.
  - now rewrite IH.
Qed.

Lemma length_stem_gz (a : string) :
  String.length a <= String.length (Py.stem (a +:+ ".gz")).
Proof.
  unfold Py.stem. rewrite rfind_dot_gz.
  destruct (_ && _).
  - now rewrite substring_prefix.
  - rewrite length_append. lia.
Qed.

Lemma pattern_name_ne_output_name (name : string) :
  Py.endswith ".gz" name = true -> pattern_name name ≠ output_name name.
Proof.
  intros [a ->]%endswith_spec Heq.
  apply (f_equal String.length) in Heq.
  unfold pattern_name, output_name, Py.replace in Heq.
  pose proof (length_replace_from ".gz" 0 (a +:+ ".gz")) as Hle.
  pose proof (length_stem_gz a) as Hst.
  rewrite !length_append in *. simpl in *. lia.
Qed.

Lemma endswith_ndjson_gz (name : string) :
  Py.endswith ".ndjson.gz" name = true -> Py.endswith ".gz" name = true.
Proof.
  intros [a ->]%endswith_spec. apply endswith_spec.
  exists (a +:+ ".ndjson"). now rewrite append_assoc.
Qed.

(** ** Running the statements *)

Lemma world_eta w : World (files w) (unreadable w) (dirs w) (log w) (temp_dir w) = w.
Proof. now destruct w. Qed.

Section Steps.
Context {A B : Type}.
Lemma bind_eq (m : M A) (k : A -> M B) w a w1 :
  m w = (Ret a, w1) -> bind m k w = k a w1.
Proof. unfold bind. now intros ->. Qed.
Lemma bind_raise_eq (m : M A) (k : A -> M B) w e w1 :
  m w = (Raise e, w1) -> bind m k w = (Raise e, w1).
Proof. unfold bind. now intros ->. Qed.
Lemma bind_get (f : world -> A) (k : A -> M B) w : bind (get f) k w = k (f w) w.
Proof. reflexivity. Qed.
Lemma bind_ret (a : A) (k : A -> M B) w : bind (ret a) k w = k a w.
Proof. reflexivity. Qed.
Lemma bind_raise (e : exn) (k : A -> M B) w : bind (raise e) k w = (Raise e, w).
Proof. reflexivity. Qed.
Lemma bind_modify (f : world -> world) (k : unit -> M B) w :
  bind (modify f) k w = k tt (f w).
Proof. reflexivity. Qed.
Lemma bind_logger l m (k : unit -> M B) w :
  bind (logger l m) k w = k tt (add_log (l, m) w).
Proof. reflexivity. Qed.
Lemma try_except_eq (m : M A) h w a w1 :
  m w = (Ret a, w1) -> try_except m h w = (Ret a, w1).
Proof. unfold try_except. now intros ->. Qed.
Lemma try_except_raise_eq (m : M A) h w e w1 :
  m w = (Raise e, w1) -> try_except m h w = h e w1.
Proof. unfold try_except. now intros ->. Qed.
End Steps.

Lemma write_patterns (pat : path) (patterns : list string) (w : world) (old : string) :
  files w !! pat = Some old ->
  for_each patterns
    (fun _ p => append_text pat (p +:+ String Py.LF EmptyString)) tt w
  = (Ret tt, set_files <[pat := old +:+ unlines patterns]> w).
Proof.
  revert w old. induction patterns as [|p ps IH]; intros w old Hold; simpl.
  - unfold ret, set_files. simpl. rewrite append_nil_r, insert_id by done.
    now rewrite world_eta.
  - unfold bind, append_text, modify at 1. simpl.
    erewrite IH.
    2:{ simpl. rewrite lookup_insert_eq. reflexivity. }
    unfold set_files. simpl. rewrite insert_insert_eq, Hold. simpl.
    rewrite !append_assoc. reflexivity.
Qed.

Ltac wsimpl :=
  unfold set_files, set_dirs, add_log, set_temp_dir;
  cbn [files unreadable dirs log temp_dir fst snd].

Lemma write_text_eq p text w :
  p.1 ∈ dirs w -> write_text p text w = (Ret tt, set_files <[p := text]> w).
Proof. intros H. unfold write_text. now rewrite bool_decide_eq_true_2. Qed.

Lemma unlink_eq (p : path) w x :
  files w !! p = Some x -> unlink p w = (Ret tt, set_files (delete p) w).
Proof. intros H. unfold unlink. now rewrite H. Qed.

Lemma unlink_if_exists_eq (p : path) w :
  unlink_if_exists p w = (Ret tt, set_files (delete p) w).
Proof.
  unfold unlink_if_exists, path_exists. rewrite bind_get.
  destruct (files w !! p) as [x|] eqn:Hp.
  - rewrite bool_decide_eq_true_2 by eauto. now apply unlink_eq with x.
  - rewrite bool_decide_eq_false_2 by (intros [? ?]; congruence).
    unfold ret, set_files. rewrite delete_id by done. now rewrite world_eta.
Qed.

Lemma read_text_eq (p : path) w text :
  files w !! p = Some text -> p ∉ unreadable w -> read_text p w = (Ret text, w).
Proof.
  intros H Hr. unfold read_text. rewrite H.
  now rewrite bool_decide_eq_false_2.
Qed.

Lemma subprocess_run_zgrep_eq E (pat input out : path) w patterns text old :
  zgrep_on_path E = true ->
  files w !! pat = Some (pattern_file_text patterns) ->
  files w !! input = Some text ->
  files w !! out = Some old ->
  let r := matcher_answer E patterns text (bool_decide (input ∈ unreadable w)) in
  subprocess_run_zgrep E pat input out w
  = (Ret r.1, set_files <[out := old +:+ r.2]> w).
Proof.
  intros Hz Hp Hi Ho r. subst r.
  unfold subprocess_run_zgrep, zgrep_F, matcher_answer.
  rewrite Hz, Hp, Hi.
  destruct (bool_decide (input ∈ unreadable w)).
  - unfold set_files. rewrite Ho. reflexivity.
  - destruct (grep_run E _ text) as [status out'].
    unfold set_files. rewrite Ho. reflexivity.
Qed.

Ltac lk :=
  wsimpl;
  repeat first
    [ rewrite lookup_insert_eq
    | rewrite lookup_insert_ne by congruence
    | rewrite lookup_delete_eq
    | rewrite lookup_delete_ne by congruence ];
  try (eassumption || reflexivity).

Ltac map_tac :=
  apply map_eq; intros ?k;
  repeat first
    [ rewrite lookup_insert | rewrite lookup_delete ];
  repeat case_decide; subst; try congruence; try reflexivity.

Ltac step L := erewrite bind_eq; [| apply L; lk].

(** The run of [grep_filter_file] on a source that exists, in terms of
    what the matcher answers. *)
Lemma grep_filter_file_answer E self w d (input output : path) patterns text :
  zgrep_on_path E = true -> temp_dir w = Some d -> d ∈ dirs w ->
  output.1 ∈ dirs w ->
  files w !! input = Some text ->
  input ≠ (d, pattern_name input.2) -> input ≠ output ->
  output ≠ (d, pattern_name input.2) -> output ∉ unreadable w ->
  let r := matcher_answer E patterns text (bool_decide (input ∈ unreadable w)) in
  grep_filter_file E self input output patterns w =
    (Ret (count_of_answer r),
     World (files_after_answer (d, pattern_name input.2) output r (files w))
           (unreadable w) (dirs w)
           (log w ++ if bool_decide (r.1 = 0%Z \/ r.1 = 1%Z) then []
                     else [(WARNING, GrepFailed input)])
           (temp_dir w)).
Proof.
  intros Hz Ht Hd Ho Hin Hip Hio Hop Hou r.
  unfold grep_filter_file, path_exists, files_after_answer, count_of_answer.
  rewrite bind_get. rewrite bool_decide_eq_true_2 by (eexists; exact Hin).
  cbn [negb].
  remember ((d, pattern_name input.2) : path) as pat eqn:Hpat in *.
  assert (Hpd : pat.1 ∈ dirs w) by now subst pat.
  assert (Hrun : forall w0 : world,
    files w0 = <[output := EmptyString]> (<[pat := pattern_file_text patterns]> (files w)) ->
    unreadable w0 = unreadable w ->
    subprocess_run_zgrep E pat input output w0
    = (Ret r.1, set_files <[output := r.2]> w0)).
  { intros w0 Hf Hu.
    rewrite (subprocess_run_zgrep_eq E pat input output w0 patterns text EmptyString);
      rewrite ?Hf, ?Hu; try lk; try assumption. }
  clearbody r. destruct r as [status out]. cbn [fst snd] in *.
  apply try_except_eq.
  rewrite bind_get, Ht; unfold truediv; rewrite bind_ret, <- Hpat.
  step write_text_eq.
  erewrite bind_eq; [| apply write_patterns; lk].
  step write_text_eq.
  erewrite bind_eq;
    [| apply Hrun; wsimpl; [now rewrite insert_insert_eq | reflexivity]].
  erewrite bind_eq; [| eapply unlink_eq; lk].
  destruct (bool_decide (status = 0%Z)) eqn:H0.
  - apply bool_decide_eq_true in H0.
    rewrite (bool_decide_eq_true_2 (status = 0%Z \/ status = 1%Z)) by now left.
    erewrite bind_eq; [| eapply read_text_eq; [lk | exact Hou]].
    unfold ret. wsimpl. rewrite app_nil_r.
    f_equal; f_equal; first [done | map_tac].
  - apply bool_decide_eq_false in H0.
    destruct (bool_decide (status = 1%Z)) eqn:H1.
    + apply bool_decide_eq_true in H1.
      rewrite (bool_decide_eq_true_2 (status = 0%Z \/ status = 1%Z))
        by now right.
      erewrite bind_eq; [| apply unlink_if_exists_eq].
      unfold ret. wsimpl. rewrite app_nil_r.
      f_equal; f_equal; first [done | map_tac].
    + apply bool_decide_eq_false in H1.
      rewrite (bool_decide_eq_false_2 (status = 0%Z \/ status = 1%Z))
        by tauto.
      rewrite bind_logger.
      erewrite bind_eq; [| apply unlink_if_exists_eq].
      unfold ret. wsimpl. f_equal; f_equal; first [done | map_tac].
Qed.

(** On text the matcher answers with the selected lines. *)
Lemma matcher_answer_text E patterns text :
  read_as_text E patterns text ->
  matcher_answer E patterns text false
  = ((if selected_lines patterns text is [] then 1 else 0)%Z,
     unlines (selected_lines patterns text)).
Proof.
  unfold matcher_answer, grep_run, read_as_text, selected_lines.
  intros [Ht | Hs].
  - rewrite Ht. now destruct (grep_F _ text).
  - now rewrite Hs.
Qed.

Lemma count_of_answer_text (patterns : list string) (text : string) :
  count_of_answer
    ((if selected_lines patterns text is [] then 1 else 0)%Z,
     unlines (selected_lines patterns text))
  = counted_lines patterns text.
Proof.
  unfold count_of_answer, counted_lines. cbn [fst snd].
  now destruct (selected_lines patterns text).
Qed.

Lemma files_after_answer_text
    (pat out : path) (patterns : list string) (text : string) fs :
  files_after_answer pat out
    ((if selected_lines patterns text is [] then 1 else 0)%Z,
     unlines (selected_lines patterns text)) fs
  = files_after_grep pat out patterns text false fs.
Proof.
  unfold files_after_answer, files_after_grep. cbn [fst snd].
  now destruct (selected_lines patterns text).
Qed.


Lemma grep_filter_file_missing E self (input output : path) patterns w :
  files w !! input = None ->
  grep_filter_file E self input output patterns w
  = (Ret 0, add_log (WARNING, FileNotFound input) w).
Proof.
  intros Hin. unfold grep_filter_file, path_exists.
  rewrite bind_get.
  rewrite bool_decide_eq_false_2 by (rewrite Hin; intros [? ?]; congruence).
  cbn [negb]. now rewrite bind_logger.
Qed.

(** When [subprocess.run] cannot start the matcher, the except clause
    removes the output file and nothing removes the pattern file. *)
Lemma grep_filter_file_no_zgrep E self w d (input output : path) patterns :
  zgrep_on_path E = false -> temp_dir w = Some d -> d ∈ dirs w ->
  output.1 ∈ dirs w ->
  is_Some (files w !! input) ->
  output ≠ (d, pattern_name input.2) ->
  grep_filter_file E self input output patterns w =
    (Ret 0,
     World (delete output
              (<[(d, pattern_name input.2) := pattern_file_text patterns]>
                 (files w)))
           (unreadable w) (dirs w)
           (log w ++ [(ERROR, ErrorFiltering input FileNotFoundError)])
           (temp_dir w)).
Proof.
  intros Hz Ht Hd Ho Hin Hop.
  unfold grep_filter_file, path_exists.
  rewrite bind_get. rewrite bool_decide_eq_true_2 by exact Hin.
  cbn [negb].
  remember ((d, pattern_name input.2) : path) as pat eqn:Hpat in *.
  assert (Hpd : pat.1 ∈ dirs w) by now subst pat.
  erewrite try_except_raise_eq.
  2:{ rewrite bind_get, Ht. unfold truediv. rewrite bind_ret, <- Hpat.
      step write_text_eq.
      erewrite bind_eq; [| apply write_patterns; lk].
      step write_text_eq.
      apply bind_raise_eq. unfold subprocess_run_zgrep. rewrite Hz.
      reflexivity. }
  cbv beta iota. rewrite bind_logger.
  erewrite bind_eq; [| apply unlink_if_exists_eq].
  unfold ret. wsimpl. f_equal; f_equal; first [done | map_tac].
Qed.

Lemma filter_single_file_missing E self (fhir_file : path) patterns w :
  files w !! fhir_file = None ->
  filter_single_file E self fhir_file patterns w
  = (Ret (None, 0), add_log (WARNING, FileNotFound fhir_file) w).
Proof.
  intros Hin. unfold filter_single_file, path_exists.
  rewrite bind_get.
  rewrite bool_decide_eq_false_2 by (rewrite Hin; intros [? ?]; congruence).
  cbn [negb]. now rewrite bind_logger.
Qed.

(** The run of a task on a source that exists, in terms of what the
    matcher answers. *)
Lemma filter_single_file_answer E self w d (fhir_file : path) patterns text :
  zgrep_on_path E = true -> temp_dir w = Some d -> d ∈ dirs w ->
  (forall p, p ∈ unreadable w -> p.1 ≠ d) ->
  files w !! fhir_file = Some text ->
  fhir_file.1 ≠ d -> Py.endswith ".gz" fhir_file.2 = true ->
  let r := matcher_answer E patterns text
             (bool_decide (fhir_file ∈ unreadable w)) in
  let count := count_of_answer r in
  filter_single_file E self fhir_file patterns w =
    (Ret (Some (d, output_name fhir_file.2), count),
     World (files_after_answer (d, pattern_name fhir_file.2)
              (d, output_name fhir_file.2) r (files w))
           (unreadable w) (dirs w)
           (log w ++ [(INFO, Processing fhir_file.2)]
                  ++ (if bool_decide (r.1 = 0%Z \/ r.1 = 1%Z) then []
                      else [(WARNING, GrepFailed fhir_file)])
                  ++ [(INFO, if 0 <? count
                             then RecordsFiltered fhir_file.2 count
                             else NoMatchesFound fhir_file.2)])
           (temp_dir w)).
Proof.
  intros Hz Ht Hd Hu Hin Hne Hgz r count.
  unfold filter_single_file, path_exists.
  rewrite bind_get. rewrite bool_decide_eq_true_2 by (eexists; exact Hin).
  cbn [negb]. rewrite bind_logger, bind_get. wsimpl.
  rewrite Ht. unfold truediv. rewrite bind_ret.
  pose proof (pattern_name_ne_output_name _ Hgz) as Hpo.
  erewrite bind_eq.
  2:{ apply grep_filter_file_answer with (d := d) (text := text); wsimpl;
        first [ assumption
              | intros Heq; apply Hne; now rewrite Heq
              | congruence
              | intros Hx; now apply (Hu _ Hx) ]. }
  wsimpl. fold r. fold count.
  destruct (0 <? count); rewrite bind_logger; unfold ret; wsimpl;
    rewrite <- !app_assoc; reflexivity.
Qed.

Lemma filter_single_file_run E self w d (fhir_file : path) patterns text :
  zgrep_on_path E = true -> temp_dir w = Some d -> d ∈ dirs w ->
  (forall p, p ∈ unreadable w -> p.1 ≠ d) ->
  files w !! fhir_file = Some text ->
  fhir_file.1 ≠ d -> Py.endswith ".gz" fhir_file.2 = true ->
  fhir_file ∈ unreadable w \/ read_as_text E patterns text ->
  let failed := bool_decide (fhir_file ∈ unreadable w) in
  let count := if failed then 0 else counted_lines patterns text in
  filter_single_file E self fhir_file patterns w =
    (Ret (Some (d, output_name fhir_file.2), count),
     World (files_after_grep (d, pattern_name fhir_file.2)
              (d, output_name fhir_file.2) patterns text failed (files w))
           (unreadable w) (dirs w)
           (log w ++ [(INFO, Processing fhir_file.2)]
                  ++ (if failed then [(WARNING, GrepFailed fhir_file)] else [])
                  ++ [(INFO, if 0 <? count
                             then RecordsFiltered fhir_file.2 count
                             else NoMatchesFound fhir_file.2)])
           (temp_dir w)).
Proof.
  intros Hz Ht Hd Hu Hin Hne Hgz Htxt failed count.
  rewrite (filter_single_file_answer E self w d fhir_file patterns text)
    by assumption.
  cbv zeta. subst count failed.
  destruct (bool_decide (fhir_file ∈ unreadable w)) eqn:Hunr.
  - reflexivity.
  - destruct Htxt as [Hx | Htxt];
      [apply bool_decide_eq_false in Hunr; contradiction|].
    rewrite (matcher_answer_text _ _ _ Htxt).
    rewrite count_of_answer_text, files_after_answer_text.
    do 3 f_equal. cbn [fst].
    destruct (selected_lines patterns text);
      [rewrite bool_decide_eq_true_2 by now right
      | rewrite bool_decide_eq_true_2 by now left]; reflexivity.
Qed.

(** ** The task loop *)



Lemma same_inputs_refl d w : same_inputs d w w.
Proof. split; auto. Qed.

Lemma same_inputs_trans d w1 w2 w3 :
  same_inputs d w1 w2 -> same_inputs d w2 w3 -> same_inputs d w1 w3.
Proof.
  intros [Hu1 Hf1] [Hu2 Hf2]. split; [congruence|].
  intros p Hp. now rewrite Hf2, Hf1.
Qed.


Lemma actual_count_same E d patterns w w' (f : path) :
  same_inputs d w w' -> f.1 ≠ d ->
  actual_count E patterns w' f = actual_count E patterns w f.
Proof.
  intros [Hu Hf] Hne. unfold actual_count. now rewrite Hu, (Hf _ Hne).
Qed.

(** On a source that [grep] reads as text, the task adds the number of
    counted lines. *)
Lemma actual_count_text E patterns w (f : path) :
  (forall text, files w !! f = Some text -> f ∉ unreadable w ->
                read_as_text E patterns text) ->
  actual_count E patterns w f = expected_count patterns w f.
Proof.
  intros Htxt. unfold actual_count, expected_count.
  destruct (files w !! f) as [text|]; [|reflexivity].
  destruct (bool_decide (f ∈ unreadable w)) eqn:Hunr; [reflexivity|].
  apply bool_decide_eq_false in Hunr.
  rewrite (matcher_answer_text _ _ _ (Htxt text eq_refl Hunr)).
  apply count_of_answer_text.
Qed.

Lemma text_lines_from_line (cur l rest : string) :
  Py.text_lines_from cur (l +:+ String Py.LF rest) ≠ [].
Proof.
  revert cur. induction l as [|c l IH]; intros cur; simpl.
  - discriminate.
  - destruct (Ascii.eqb c Py.LF); [discriminate|].
    destruct (Ascii.eqb c Py.CR); [|apply IH].
    destruct (l +:+ String Py.LF rest) as [|c' s']; [discriminate|].
    destruct (Ascii.eqb c' Py.LF); discriminate.
Qed.

Lemma counted_lines_zero (patterns : list string) (text : string) :
  counted_lines patterns text = 0 -> selected_lines patterns text = [].
Proof.
  unfold counted_lines. destruct (selected_lines patterns text) as [|l ls];
    [reflexivity|].
  intros H. exfalso. apply length_zero_iff_nil in H.
  cbn [unlines foldr] in H. now apply text_lines_from_line in H.
Qed.

(** A source that counts for nothing as text counts for nothing. *)
Lemma actual_count_zero E patterns w (f : path) :
  expected_count patterns w f = 0 -> actual_count E patterns w f = 0.
Proof.
  intros H. rewrite actual_count_text; [exact H|].
  intros text Hin Hr. right. apply counted_lines_zero.
  unfold expected_count in H. rewrite Hin in H.
  now rewrite bool_decide_eq_false_2 in H.
Qed.

Lemma no_error_logged_refl w : no_error_logged w w.
Proof. exists []. now rewrite app_nil_r. Qed.

Lemma no_error_logged_trans w1 w2 w3 :
  no_error_logged w1 w2 -> no_error_logged w2 w3 -> no_error_logged w1 w3.
Proof.
  intros (a1 & H1 & F1) (a2 & H2 & F2). exists (a1 ++ a2). split.
  - now rewrite H2, H1, app_assoc.
  - now apply Forall_app.
Qed.

Lemma files_after_answer_outside (d : string) (name1 name2 : string)
    (r : Z * string) fs (p : path) :
  p.1 ≠ d ->
  files_after_answer (d, name1) (d, name2) r fs !! p = fs !! p.
Proof.
  intros Hp. unfold files_after_answer.
  assert (((d, name1) : path) ≠ p) by (intros <-; now apply Hp).
  assert (((d, name2) : path) ≠ p) by (intros <-; now apply Hp).
  destruct (bool_decide _); now lk.
Qed.

Lemma collect_run E self patterns d acc (f : path) w :
  arena_ready E d w -> source_file d f ->
  exists w',
    collect E self patterns acc f w
    = (Ret (acc + actual_count E patterns w f), w')
    /\ arena_ready E d w' /\ same_inputs d w w' /\ no_error_logged w w'
    /\ files w'
       = match files w !! f with
         | Some text =>
             files_after_answer (d, pattern_name f.2) (d, output_name f.2)
               (matcher_answer E patterns text
                  (bool_decide (f ∈ unreadable w)))
               (files w)
         | None => files w
         end.
Proof.
  intros (Hz & Ht & Hd & Hu) [Hne Hgz%endswith_ndjson_gz].
  unfold collect, actual_count.
  destruct (files w !! f) as [text|] eqn:Hin.
  - eexists. split; [|split; [|split; [|split]]].
    + apply try_except_eq. erewrite bind_eq;
        [| now apply filter_single_file_answer with (d := d) (text := text)].
      unfold ret. cbn [snd]. reflexivity.
    + split; [|split; [|split]]; assumption.
    + split; [reflexivity|]. wsimpl. intros p Hp.
      now apply files_after_answer_outside.
    + eexists. split; [wsimpl; reflexivity|].
      destruct (bool_decide (_ \/ _)), (0 <? _);
        repeat constructor; discriminate.
    + reflexivity.
  - eexists. split; [|split; [|split; [|split]]].
    + apply try_except_eq. erewrite bind_eq;
        [| now apply filter_single_file_missing].
      unfold ret. cbn [snd]. reflexivity.
    + split; [|split; [|split]]; assumption.
    + split; [reflexivity | intros p _; reflexivity].
    + eexists. split; [wsimpl; reflexivity|].
      repeat constructor; discriminate.
    + reflexivity.
Qed.

Lemma tasks_run E self patterns d (fs : list path) acc w :
  arena_ready E d w -> Forall (source_file d) fs ->
  exists w',
    for_each fs (collect E self patterns) acc w
    = (Ret (acc + sum_list (map (actual_count E patterns w) fs)), w')
    /\ arena_ready E d w' /\ same_inputs d w w' /\ no_error_logged w w'.
Proof.
  intros Hw Hfs. revert acc w Hw.
  induction Hfs as [|f fs Hf Hfs IH]; intros acc w Hw; simpl.
  - exists w. unfold ret. rewrite Nat.add_0_r.
    split; [reflexivity|].
    split; [assumption|].
    split; [apply same_inputs_refl | apply no_error_logged_refl].
  - destruct (collect_run E self patterns d acc f w Hw Hf)
      as (w1 & H1 & Hw1 & Hs1 & Hl1 & _).
    destruct (IH (acc + actual_count E patterns w f) w1 Hw1)
      as (w2 & H2 & Hw2 & Hs2 & Hl2).
    exists w2. split; [|split; [|split]].
    + rewrite (bind_eq _ _ _ _ _ H1), H2. do 2 f_equal.
      rewrite <- Nat.add_assoc. do 3 f_equal.
      apply map_ext_Forall.
      eapply Forall_impl; [exact Hfs|]. intros g [Hg _].
      now apply actual_count_same with d.
    + assumption.
    + now apply same_inputs_trans with w1.
    + now apply no_error_logged_trans with w1.
Qed.

(** The total does not depend on the order in which the tasks complete. *)
Lemma total_independent_of_completion_order
    E self patterns d (fs1 fs2 : list path) w :
  arena_ready E d w -> Forall (source_file d) fs1 -> fs1 ≡ₚ fs2 ->
  exists total w1 w2,
    for_each fs1 (collect E self patterns) 0 w = (Ret total, w1)
    /\ for_each fs2 (collect E self patterns) 0 w = (Ret total, w2).
Proof.
  intros Hw Hfs1 Hperm.
  assert (Hfs2 : Forall (source_file d) fs2) by now rewrite <- Hperm.
  destruct (tasks_run E self patterns d fs1 0 w Hw Hfs1) as (w1 & H1 & _).
  destruct (tasks_run E self patterns d fs2 0 w Hw Hfs2) as (w2 & H2 & _).
  exists (sum_list (map (actual_count E patterns w) fs1)), w1, w2.
  split; [exact H1|]. rewrite H2. do 2 f_equal.
  now rewrite Hperm.
Qed.

(** *** The files of the temporary directory *)












(** ** [grep_filter_file] *)




(** C6.  When [subprocess.run] raises because the matcher cannot be
    started, [grep_filter_file] returns 0 and the pattern file it wrote is
    still there: the except clauses remove the output file only. *)
Theorem pattern_file_survives_exception
    E self w d (input output : path) (patterns : list string) :
  zgrep_on_path E = false -> temp_dir w = Some d -> d ∈ dirs w ->
  output.1 ∈ dirs w -> is_Some (files w !! input) ->
  output ≠ (d, pattern_name input.2) ->
  exists w',
    grep_filter_file E self input output patterns w = (Ret 0, w')
    /\ files w' !! (d, pattern_name input.2)
       = Some (pattern_file_text patterns)
    /\ files w' !! output = None
    /\ log w' = log w ++ [(ERROR, ErrorFiltering input FileNotFoundError)].
Proof.
  intros Hz Ht Hd Ho Hin Hop.
  eexists. split; [now apply grep_filter_file_no_zgrep with (d := d)|].
  wsimpl. split; [|split]; [now lk | now lk | reflexivity].
Qed.

Lemma pattern_file_survives_exception_witness :
  let w := world_with "TypeA.ndjson.gz" sample_text in
  exists w',
    grep_filter_file env_without_zgrep (sample_filter ["P001"; "P002"])
      ("fhir", "TypeA.ndjson.gz") ("arena", "TypeA.ndjson")
      ["P001"; "P002"] w = (Ret 0, w')
    /\ files w' !! ("arena", "patterns_TypeA.ndjson.txt")
       = Some ("P001" +:+ nl +:+ "P002" +:+ nl).
Proof.
  intros w.
  destruct (pattern_file_survives_exception env_without_zgrep
              (sample_filter ["P001"; "P002"]) w "arena"
              ("fhir", "TypeA.ndjson.gz") ("arena", "TypeA.ndjson")
              ["P001"; "P002"]) as (w' & Hrun & Hpat & _).
  - reflexivity.
  - reflexivity.
  - set_solver.
  - set_solver.
  - vm_compute. eauto.
  - vm_compute. congruence.
  - exists w'. split; [exact Hrun | exact Hpat].
Defined.

(** ** [filter_single_file] *)

(** C2 (amended).  When the matcher selects no line of a readable source
    file, the task leaves neither the output file nor the pattern file in
    the arena and reports the count 0; the first component of its result
    is the path of the output file all the same. *)
Theorem zero_match_task_leaves_no_file
    E self w d (fhir_file : path) (patterns : list string) (text : string) :
  arena_ready E d w -> source_file d fhir_file ->
  files w !! fhir_file = Some text -> fhir_file ∉ unreadable w ->
  selected_lines patterns text = [] ->
  exists w',
    filter_single_file E self fhir_file patterns w
    = (Ret (Some (d, output_name fhir_file.2), 0), w')
    /\ files w' !! (d, output_name fhir_file.2) = None
    /\ files w' !! (d, pattern_name fhir_file.2) = None
    /\ log w' = log w ++ [(INFO, Processing fhir_file.2);
                          (INFO, NoMatchesFound fhir_file.2)].
Proof.
  intros (Hz & Ht & Hd & Hu) [Hne Hgz%endswith_ndjson_gz] Hin Hr Hsel.
  pose proof (filter_single_file_run E self w d fhir_file patterns text
                Hz Ht Hd Hu Hin Hne Hgz (or_intror (or_intror Hsel)))
    as Hrun.
  cbv zeta in Hrun.
  rewrite bool_decide_eq_false_2 in Hrun by exact Hr.
  assert (Hc : counted_lines patterns text = 0).
  { unfold counted_lines. now rewrite Hsel. }
  rewrite Hc in Hrun. cbn [Nat.ltb Nat.leb] in Hrun.
  eexists. split; [exact Hrun|]. wsimpl.
  unfold files_after_grep. rewrite Hsel.
  pose proof (pattern_name_ne_output_name _ Hgz) as Hpo.
  split; [|split]; [now lk | | reflexivity].
  assert ((d, output_name fhir_file.2) ≠ ((d, pattern_name fhir_file.2) : path))
    by congruence.
  now lk.
Qed.

Lemma zero_match_task_leaves_no_file_witness :
  let w := world_with "TypeA.ndjson.gz" sample_text in
  exists w',
    filter_single_file sample_env (sample_filter ["P777"])
      ("fhir", "TypeA.ndjson.gz") ["P777"] w
    = (Ret (Some ("arena", "TypeA.ndjson"), 0), w')
    /\ files w' !! ("arena", "TypeA.ndjson") = None.
Proof.
  intros w.
  destruct (zero_match_task_leaves_no_file sample_env (sample_filter ["P777"])
              w "arena" ("fhir", "TypeA.ndjson.gz") ["P777"] sample_text)
    as (w' & Hrun & Hout & _).
  - split; [reflexivity|]. split; [reflexivity|]. split; [set_solver|].
    intros p Hp. set_solver.
  - split; [vm_compute; congruence | reflexivity].
  - reflexivity.
  - set_solver.
  - reflexivity.
  - exists w'. split; [exact Hrun | exact Hout].
Defined.

(** C2, as stated, fails: the task of a file without a matching line
    reports the path of the output file, not the absence of one. *)
Lemma zero_match_task_counterexample :
  let w := world_with "TypeA.ndjson.gz" sample_text in
  let r := filter_single_file sample_env (sample_filter ["P777"])
             ("fhir", "TypeA.ndjson.gz") ["P777"] w in
  List.filter (line_matches ["P777"]) (lines_lf sample_text) = []
  /\ r.1 = Ret (Some ("arena", "TypeA.ndjson"), 0)
  /\ r.1 ≠ Ret (None, 0).
Proof. vm_compute. repeat split. congruence. Qed.

(** ** The task loop: a failing source file *)



(** ** The identifier set *)

Lemma isspace_hash : Py.isspace "#"%char = false.
Proof. reflexivity. Qed.

Lemma rstrip_comment (s : string) :
  exists r, Py.rstrip (String "#"%char s) = String "#"%char r.
Proof.
  simpl. destruct (Py.rstrip s); rewrite ?isspace_hash; eauto.
Qed.

Lemma strip_comment (line : string) :
  Py.startswith "#" line = true -> Py.startswith "#" (Py.strip line) = true.
Proof.
  intros [b ->]%startswith_spec. unfold Py.strip.
  destruct (rstrip_comment b) as [r Hr].
  change ("#" +:+ b) with (String "#"%char b). rewrite Hr.
  reflexivity.
Qed.

Lemma elem_of_ids_of_lines (lines : list string) (x : string) :
  x ∈ ids_of_lines lines
  <-> exists line, line ∈ lines /\ x = Py.strip line
                   /\ x ≠ EmptyString /\ Py.startswith "#" x = false.
Proof.
  unfold ids_of_lines, keep_id.
  rewrite list_elem_of_In, List.filter_In, <- list_elem_of_In.
  rewrite list_elem_of_fmap, andb_true_iff, !negb_true_iff.
  rewrite String.eqb_neq. split.
  - intros [(line & -> & Hl) [H1 H2]]. exists line.
    split; [assumption|]. split; [reflexivity|]. split; assumption.
  - intros (line & Hl & -> & H1 & H2). split; [|split; assumption].
    exists line. split; [reflexivity | assumption].
Qed.

Lemma read_patient_list_eq (p : path) w text :
  files w !! p = Some text -> p ∉ unreadable w ->
  read_patient_list p w = (Ret (ids_of_lines (Py.text_lines text)), w).
Proof.
  intros Hp Hr. unfold read_patient_list.
  erewrite bind_eq; [| eapply read_text_eq; eassumption]. reflexivity.
Qed.

(** C7.  The identifier set built from a file holds the stripped lines of
    the file that are neither blank nor comments: a blank line and a line
    that begins with [#] add nothing, and an identifier that occurs on
    several lines is one element of the set. *)
Theorem identifier_set_from_file
    E (p : path) w (text dir : string) (workers : option Z) :
  files w !! p = Some text -> p ∉ unreadable w ->
  exists ids self w',
    (l <- read_patient_list p ;; init E l dir workers) w = (Ret self, w')
    /\ ids = ids_of_lines (Py.text_lines text)
    /\ patient_ids self = list_to_set ids
    /\ (forall x,
          x ∈ patient_ids self
          <-> exists line, line ∈ Py.text_lines text /\ x = Py.strip line
                           /\ x ≠ EmptyString
                           /\ Py.startswith "#" x = false)
    /\ (forall line,
          Py.strip line = EmptyString \/ Py.startswith "#" line = true ->
          keep_id (Py.strip line) = false)
    /\ size (patient_ids self) = length (remove_dups ids).
Proof.
  intros Hp Hr.
  exists (ids_of_lines (Py.text_lines text)). eexists. eexists.
  split; [|split; [|split; [|split; [|split]]]].
  - erewrite bind_eq; [| eapply read_patient_list_eq; eassumption].
    unfold init. rewrite bind_modify, bind_logger. reflexivity.
  - reflexivity.
  - reflexivity.
  - intros x. cbn [patient_ids]. rewrite elem_of_list_to_set.
    apply elem_of_ids_of_lines.
  - intros line [Hb | Hc]; unfold keep_id.
    + now rewrite Hb.
    + rewrite (strip_comment _ Hc). apply andb_false_r.
  - cbn [patient_ids].
    rewrite <- (size_list_to_set (C := gset string) (remove_dups _))
      by apply NoDup_remove_dups.
    f_equal. apply set_eq. intros x.
    now rewrite !elem_of_list_to_set, elem_of_remove_dups.
Qed.

Lemma identifier_set_from_file_witness :
  exists self w',
    (l <- read_patient_list (".", "ids.txt") ;; init sample_env l "fhir" None)
      (world_with_id_file sample_id_file) = (Ret self, w')
    /\ patient_ids self = {[ "P001" ]}
    /\ size (patient_ids self) = 1.
Proof.
  destruct (identifier_set_from_file sample_env (".", "ids.txt")
              (world_with_id_file sample_id_file) sample_id_file "fhir" None)
    as (ids & self & w' & Hrun & Hids & Hset & _ & _ & Hsize).
  - reflexivity.
  - set_solver.
  - exists self, w'. split; [exact Hrun|].
    assert (Hl : ids = ["P001"]) by (rewrite Hids; reflexivity).
    rewrite Hsize, Hset, Hl. split; [|reflexivity].
    set_solver.
Defined.

(** ** [main]: no identifiers *)

Lemma get_patient_ids_frame (a : args) w r w1 :
  get_patient_ids a w = (r, w1) ->
  files w1 = files w /\ unreadable w1 = unreadable w /\ dirs w1 = dirs w
  /\ temp_dir w1 = temp_dir w
  /\ (log w1 = log w
      \/ exists n p, log w1 = log w ++ [(INFO, ReadPatientIds n p)]).
Proof.
  unfold get_patient_ids, read_patient_list, read_text.
  destruct (patient_list a) as [p|].
  - unfold bind, logger, modify, ret.
    destruct (files w !! p) as [text|].
    + destruct (bool_decide (p ∈ unreadable w)); intros [= <- <-]; wsimpl;
        eauto 10.
    + intros [= <- <-]. eauto 10.
  - unfold ret. intros [= <- <-]. eauto 10.
Qed.

(** C8.  When the command line yields no identifier, [main] logs the error
    [No patient IDs provided] and returns: no file and no directory is
    created, [temp_dir] is not set, and apart from the note about the
    identifier file that was read nothing else is logged, so no task has
    been started. *)
Theorem empty_identifier_set_aborts E (a : args) w ids w1 :
  get_patient_ids a w = (Ret ids, w1) ->
  (list_to_set (default [] ids) : gset string) = ∅ ->
  main E a w = (Ret tt, add_log (ERROR, NoPatientIds) w1)
  /\ files w1 = files w /\ dirs w1 = dirs w /\ temp_dir w1 = temp_dir w
  /\ (log w1 = log w
      \/ exists n p, log w1 = log w ++ [(INFO, ReadPatientIds n p)]).
Proof.
  intros Hget Hempty.
  destruct (get_patient_ids_frame a w _ _ Hget) as (Hf & _ & Hd & Ht & Hl).
  split; [| split; [|split; [|split]]; assumption].
  unfold main. rewrite (bind_eq _ _ _ _ _ Hget).
  destruct ids as [[|id ids]|]; [reflexivity | | reflexivity].
  exfalso. cbn [default] in Hempty. clear -Hempty. set_solver.
Qed.

Lemma empty_identifier_set_aborts_witness :
  let w := world_with_id_file ("# nobody" +:+ nl +:+ nl) in
  exists w',
    main sample_env (args_with_patient_list (".", "ids.txt")) w = (Ret tt, w')
    /\ files w' = files w /\ dirs w' = dirs w /\ temp_dir w' = None
    /\ log w' = [(INFO, ReadPatientIds 0 (".", "ids.txt"));
                 (ERROR, NoPatientIds)].
Proof.
  intros w.
  destruct (empty_identifier_set_aborts sample_env
              (args_with_patient_list (".", "ids.txt")) w (Some [])
              (add_log (INFO, ReadPatientIds 0 (".", "ids.txt")) w))
    as (Hrun & _).
  - vm_compute. reflexivity.
  - reflexivity.
  - eexists. split; [exact Hrun|]. repeat split.
Defined.

(** ** The summary and the iteration order of the identifier set *)

(** C3.  Two runs on the same identifiers and the same source files, in
    processes that iterate over the identifier set in different orders,
    write the same filtered file and different summaries: with six
    identifiers the five that the summary lists are taken from the set in
    iteration order before they are sorted. *)
Theorem summary_depends_on_set_order :
  let a :=
    args_with_patients ["P001"; "P002"; "P003"; "P004"; "P005"; "P006"] in
  let w := world_before "TypeA.ndjson.gz" sample_text in
  let tmp := mkdtemp_name sample_env in
  let r1 := main sample_env a w in
  let r2 := main env_other_seed a w in
  (forall X, set_order sample_env X ≡ₚ elements X)
  /\ (forall X, set_order env_other_seed X ≡ₚ elements X)
  /\ r1.1 = Ret tt /\ r2.1 = Ret tt
  /\ files r1.2 !! (tmp, "TypeA.ndjson") = files r2.2 !! (tmp, "TypeA.ndjson")
  /\ files r1.2 !! (tmp, "SUMMARY.txt") ≠ files r2.2 !! (tmp, "SUMMARY.txt").
Proof.
  intros a w tmp r1 r2.
  split; [reflexivity|].
  split; [intros X; apply reverse_Permutation|].
  vm_compute. repeat split. congruence.
Qed.

(** ** [map_filename_to_resource_type] *)

(** C9.  Every base name that begins with [MimicMedication] is mapped to
    [Medication]: the loop over the table returns at that entry, which
    comes before the four longer [MimicMedication...] entries.  A file of
    medication administrations, dispenses, requests or statements is thus
    typed [Medication]. *)
Theorem medication_prefix_shadows_later_entries :
  (forall rest,
     BulkImport.first_prefix BulkImport.type_mapping
       ("MimicMedication" +:+ rest) = Some "Medication")
  /\ BulkImport.map_filename_to_resource_type
       "MimicMedicationAdministration.ndjson.gz" = "Medication"
  /\ BulkImport.map_filename_to_resource_type
       "MimicMedicationDispense.ndjson.gz" = "Medication"
  /\ BulkImport.map_filename_to_resource_type
       "MimicMedicationRequest.ndjson" = "Medication"
  /\ BulkImport.map_filename_to_resource_type
       "MimicMedicationStatementED.ndjson.gz" = "Medication"
  /\ BulkImport.fallback "MedicationAdministration"
     = "MedicationAdministration".
Proof.
  split; [intros rest; reflexivity|]. repeat split.
Qed.

(** ** [main]: the steps before the tasks *)


Lemma bind_assoc {A B C} (m : M A) (k : A -> M B) (k' : B -> M C) w :
  bind (bind m k) k' w = bind m (fun x => bind (k x) k') w.
Proof. unfold bind. now destruct (m w) as [[x|e] w1]. Qed.

Ltac mstep :=
  first [ rewrite bind_assoc | rewrite bind_get | rewrite bind_modify
        | rewrite bind_logger | rewrite bind_ret ];
  cbv beta.

Lemma main_finally_eq w :
  main_finally w
  = (Ret tt, add_log (INFO, TemporaryDirectoryPreserved (temp_dir w)) w).
Proof. reflexivity. Qed.

Lemma main_proceeds E (a : args) w id ids w1 :
  get_patient_ids a w = (Ret (Some (id :: ids)), w1) ->
  main E a w
  = try_finally (main_try E a (filter_of_args E a (id :: ids))) main_finally
      (World (files w1) (unreadable w1) (dirs w1)
         (log w1 ++ [(INFO, Starting (length (id :: ids)));
                     (INFO, Initialized (length (id :: ids))
                              (workers_or_default E (threads a)))])
         None).
Proof.
  intros Hget. unfold main. rewrite (bind_eq _ _ _ _ _ Hget).
  rewrite bind_logger. unfold init. cbv zeta.
  repeat mstep. wsimpl.
  rewrite <- app_assoc. reflexivity.
Qed.

Lemma main_try_fresh E (a : args) self w :
  temp_dir w = None ->
  main_try E a self w
  = bind (filter_found_files E self) (main_report E a self)
      (World (files w) (unreadable w) ({[mkdtemp_name E]} ∪ dirs w)
         (log w ++ [(INFO, CreatedTemporaryDirectory (mkdtemp_name E))])
         (Some (mkdtemp_name E))).
Proof.
  intros Ht. unfold main_try, filter_all_files.
  repeat mstep. rewrite Ht.
  unfold create_temp_directory. cbv zeta.
  repeat mstep. wsimpl. reflexivity.
Qed.

Lemma elem_of_glob_files (fs : gmap path string) d suffix (f : path) :
  f ∈ glob_files fs d suffix
  <-> is_Some (fs !! f) /\ f.1 = d /\ Py.endswith suffix f.2 = true.
Proof.
  unfold glob_files. rewrite list_elem_of_filter, elem_of_elements, elem_of_dom.
  tauto.
Qed.

Lemma filter_found_files_none E self w :
  glob_files (files w) (fhir_dir self) ".ndjson.gz" = [] ->
  filter_found_files E self w = (Ret 0, add_log (ERROR, NoNdjsonGzFiles) w).
Proof.
  intros Hg. unfold filter_found_files, glob. rewrite bind_get, Hg.
  now rewrite bind_logger.
Qed.

Lemma filter_found_files_some E self w :
  glob_files (files w) (fhir_dir self) ".ndjson.gz" ≠ [] ->
  (0 < max_workers self)%Z ->
  let found := glob_files (files w) (fhir_dir self) ".ndjson.gz" in
  filter_found_files E self w
  = for_each (completion_order E found)
      (collect E self (set_order E (patient_ids self))) 0
      (add_log (INFO, FoundFiles (length found) (max_workers self)) w).
Proof.
  intros Hg Hw found. unfold filter_found_files, glob. rewrite bind_get.
  subst found. destruct (glob_files _ _ _) as [|f fs]; [congruence|].
  rewrite bind_logger. now rewrite bool_decide_eq_false_2 by lia.
Qed.

Lemma sum_list_zero {A} (g : A -> nat) (l : list A) :
  Forall (fun x => g x = 0) l -> sum_list (map g l) = 0.
Proof. induction 1 as [|x l Hx _ IH]; simpl; [reflexivity | lia]. Qed.

(** C4.  A run with identifiers that finds no [*.ndjson.gz] file in the
    source directory logs the error [No NDJSON.gz files found] and ends
    without having run a task or written a file.  A run that finds files,
    none of which yields a counted line, ends normally with the warning
    [No resources found] and logs no record of level [ERROR]. *)
Theorem no_input_files_is_reported_as_error E (a : args) w id ids :
  patient_list a = None -> patients a = Some (id :: ids) ->
  let found := glob_files (files w) (arg_fhir_dir a) ".ndjson.gz" in
  let tmp := mkdtemp_name E in
  let self := filter_of_args E a (id :: ids) in
  let patterns := set_order E (patient_ids self) in
  (found = [] ->
   main E a w
   = (Ret tt,
      World (files w) (unreadable w) ({[tmp]} ∪ dirs w)
        (log w ++ [(INFO, Starting (length (id :: ids)));
                   (INFO, Initialized (length (id :: ids)) (max_workers self));
                   (INFO, CreatedTemporaryDirectory tmp);
                   (ERROR, NoNdjsonGzFiles);
                   (WARNING, NoResourcesFound);
                   (INFO, TemporaryDirectoryPreserved (Some tmp))])
        (Some tmp)))
  /\ (found ≠ [] ->
      zgrep_on_path E = true -> (0 < max_workers self)%Z ->
      arg_fhir_dir a ≠ tmp -> (forall p : path, p ∈ unreadable w -> p.1 ≠ tmp) ->
      completion_order E found ≡ₚ found ->
      (forall f, f ∈ found -> expected_count patterns w f = 0) ->
      exists w' added,
        main E a w = (Ret tt, w')
        /\ log w' = log w ++ added
        /\ Forall (fun r => r.1 ≠ ERROR) added
        /\ (WARNING, NoResourcesFound) ∈ added).
Proof.
  intros Hpl Hps found tmp self patterns.
  assert (Hget : get_patient_ids a w = (Ret (Some (id :: ids)), w)).
  { unfold get_patient_ids. now rewrite Hpl, Hps. }
  rewrite (main_proceeds E a w id ids w Hget).
  split.
  - intros Hnone. unfold try_finally.
    rewrite main_try_fresh by reflexivity.
    erewrite bind_eq; [| now apply filter_found_files_none].
    unfold main_report. rewrite bool_decide_eq_true_2 by reflexivity.
    unfold logger, modify. rewrite main_finally_eq. wsimpl.
    rewrite <- !app_assoc. reflexivity.
  - intros Hsome Hz Hmw Hdir Hunr Hperm Hzero.
    set (w3 := World (files w) (unreadable w) ({[tmp]} ∪ dirs w)
                 (log w ++ [(INFO, Starting (length (id :: ids)));
                            (INFO, Initialized (length (id :: ids))
                                     (max_workers self));
                            (INFO, CreatedTemporaryDirectory tmp);
                            (INFO, FoundFiles (length found) (max_workers self))])
                 (Some tmp)).
    assert (Hready : arena_ready E tmp w3).
    { split; [exact Hz|]. split; [reflexivity|]. split; [|exact Hunr].
      subst w3. cbn [dirs]. set_solver. }
    assert (Hsrc : Forall (source_file tmp) (completion_order E found)).
    { apply Forall_forall. intros f Hf. rewrite Hperm in Hf.
      apply elem_of_glob_files in Hf as (_ & Hd & Hs).
      split; [congruence | exact Hs]. }
    destruct (tasks_run E self patterns tmp (completion_order E found) 0 w3
                Hready Hsrc) as (w4 & Hrun & _ & _ & added & Hlog & Hadded).
    rewrite sum_list_zero in Hrun.
    2:{ apply Forall_forall. intros f Hf. rewrite Hperm in Hf.
        apply actual_count_zero. exact (Hzero f Hf). }
    eexists. eexists. split; [|split; [|split]].
    + unfold try_finally.
      rewrite main_try_fresh by reflexivity.
      erewrite bind_eq.
      2:{ rewrite filter_found_files_some by assumption.
          wsimpl. rewrite <- !app_assoc. exact Hrun. }
      unfold main_report. rewrite bool_decide_eq_true_2 by reflexivity.
      unfold logger, modify. rewrite main_finally_eq. reflexivity.
    + wsimpl. rewrite Hlog. subst w3. cbn [log].
      rewrite <- !app_assoc. reflexivity.
    + cbn [app]. repeat (apply Forall_cons; split; [discriminate|]).
      apply Forall_app. split; [exact Hadded|].
      repeat constructor; discriminate.
    + cbn [app]. do 4 apply list_elem_of_further.
      rewrite elem_of_app. right. apply list_elem_of_here.
Qed.

Lemma no_input_files_is_reported_as_error_witness :
  (exists w',
     main sample_env (args_with_patients ["P001"])
       (world_before "notes.txt" sample_text) = (Ret tt, w')
     /\ (ERROR, NoNdjsonGzFiles) ∈ log w'
     /\ files w' = files (world_before "notes.txt" sample_text))
  /\ (exists w',
        main sample_env (args_with_patients ["P777"])
          (world_before "TypeA.ndjson.gz" sample_text) = (Ret tt, w')
        /\ ((ERROR, NoNdjsonGzFiles) ∉ log w')
        /\ (WARNING, NoResourcesFound) ∈ log w').
Proof.
  split.
  - pose proof (no_input_files_is_reported_as_error sample_env
                  (args_with_patients ["P001"])
                  (world_before "notes.txt" sample_text) "P001" []
                  eq_refl eq_refl) as H.
    cbv zeta in H. destruct H as [Hnone _].
    eexists. split; [apply Hnone; vm_compute; reflexivity|].
    split; [|reflexivity].
    cbn [log app]. do 3 apply list_elem_of_further. apply list_elem_of_here.
  - pose proof (no_input_files_is_reported_as_error sample_env
                  (args_with_patients ["P777"])
                  (world_before "TypeA.ndjson.gz" sample_text) "P777" []
                  eq_refl eq_refl) as H.
    cbv zeta in H. destruct H as [_ Hsome].
    assert (Hfound :
      glob_files (files (world_before "TypeA.ndjson.gz" sample_text))
        (arg_fhir_dir (args_with_patients ["P777"])) ".ndjson.gz"
      = [("fhir", "TypeA.ndjson.gz")]) by (vm_compute; reflexivity).
    destruct Hsome as (w' & added & Hrun & Hlog & Hadded & Hwarn).
    + rewrite Hfound. congruence.
    + reflexivity.
    + reflexivity.
    + vm_compute. congruence.
    + intros p Hp. cbn [unreadable world_before] in Hp.
      exfalso. exact (not_elem_of_empty _ Hp).
    + rewrite Hfound. reflexivity.
    + intros f Hf. rewrite Hfound in Hf.
      apply list_elem_of_singleton in Hf. subst f. vm_compute. reflexivity.
    + exists w'. split; [exact Hrun|]. rewrite Hlog. cbn [log world_before].
      split.
      * intros Hin. rewrite app_nil_l in Hin.
        rewrite Forall_forall in Hadded. now apply (Hadded _ Hin).
      * rewrite app_nil_l. exact Hwarn.
Defined.
(** ** The arena is kept *)

Section Frame.

Variable R : relation world.
Hypothesis R_refl : forall w, R w w.
Hypothesis R_trans : forall w1 w2 w3, R w1 w2 -> R w2 w3 -> R w1 w3.
Hypothesis R_files : forall f w, R w (set_files f w).
Hypothesis R_mkdir : forall d w, R w (set_dirs (union {[d]}) w).
Hypothesis R_log : forall r w, R w (add_log r w).

Lemma keeps_ret {A} (a : A) : keeps R (ret a).
Proof. intros w. apply R_refl. Qed.

Lemma keeps_raise {A} (e : exn) : keeps R (raise (A := A) e).
Proof. intros w. apply R_refl. Qed.

Lemma keeps_get {A} (f : world -> A) : keeps R (get f).
Proof. intros w. apply R_refl. Qed.

Lemma keeps_bind {A B} (m : M A) (k : A -> M B) :
  keeps R m -> (forall a, keeps R (k a)) -> keeps R (bind m k).
Proof.
  intros Hm Hk w. unfold bind. specialize (Hm w).
  destruct (m w) as [[a|e] w1]; [|exact Hm].
  eapply R_trans; [exact Hm | apply Hk].
Qed.

Lemma keeps_try_except {A} (m : M A) (h : exn -> M A) :
  keeps R m -> (forall e, keeps R (h e)) -> keeps R (try_except m h).
Proof.
  intros Hm Hh w. unfold try_except. specialize (Hm w).
  destruct (m w) as [[a|e] w1]; [exact Hm|].
  eapply R_trans; [exact Hm | apply Hh].
Qed.

Lemma keeps_try_finally {A} (m : M A) (f : M unit) :
  keeps R m -> keeps R f -> keeps R (try_finally m f).
Proof.
  intros Hm Hf w. unfold try_finally. specialize (Hm w).
  destruct (m w) as [r w1]. specialize (Hf w1).
  destruct (f w1) as [[u|e] w2]; eapply R_trans; eassumption.
Qed.

Lemma keeps_for_each {A B} (l : list A) (body : B -> A -> M B) (acc : B) :
  (forall b x, keeps R (body b x)) -> keeps R (for_each l body acc).
Proof.
  intros Hbody. revert acc. induction l as [|x l IH]; intros acc; simpl.
  - apply keeps_ret.
  - apply keeps_bind; [apply Hbody | intros b; apply IH].
Qed.

Lemma keeps_logger l m : keeps R (logger l m).
Proof. intros w. apply R_log. Qed.

Lemma keeps_write_text p text : keeps R (write_text p text).
Proof.
  intros w. unfold write_text. destruct (bool_decide _); [apply R_files|].
  apply R_refl.
Qed.

Lemma keeps_append_text p text : keeps R (append_text p text).
Proof. intros w. apply R_files. Qed.

Lemma keeps_read_text p : keeps R (read_text p).
Proof.
  intros w. unfold read_text. destruct (files w !! p); [|apply R_refl].
  destruct (bool_decide _); apply R_refl.
Qed.

Lemma keeps_unlink p : keeps R (unlink p).
Proof.
  intros w. unfold unlink. destruct (files w !! p); [apply R_files|].
  apply R_refl.
Qed.

Lemma keeps_subprocess_run_zgrep E p i o :
  keeps R (subprocess_run_zgrep E p i o).
Proof.
  intros w. unfold subprocess_run_zgrep.
  destruct (zgrep_on_path E); [|apply R_refl].
  destruct (zgrep_F E p i w). apply R_files.
Qed.

Lemma keeps_mkdir_exist_ok d : keeps R (mkdir_exist_ok d).
Proof.
  intros w. unfold mkdir_exist_ok.
  destruct (bool_decide _); [apply R_refl|].
  destruct (is_file w d); [apply R_refl|].
  destruct (parent_dir d); [|apply R_mkdir].
  destruct (bool_decide _); [apply R_mkdir|].
  destruct (existsb _ _); apply R_refl.
Qed.

Lemma keeps_truediv d name : keeps R (truediv d name).
Proof. destruct d; [apply keeps_ret | apply keeps_raise]. Qed.

Lemma keeps_deref d : keeps R (deref d).
Proof. destruct d; [apply keeps_ret | apply keeps_raise]. Qed.

Ltac keeps_step :=
  first
    [ apply keeps_truediv | apply keeps_deref
    | apply keeps_ret | apply keeps_raise | apply keeps_get
    | apply keeps_logger | apply keeps_write_text | apply keeps_append_text
    | apply keeps_read_text | apply keeps_unlink
    | apply keeps_subprocess_run_zgrep | apply keeps_mkdir_exist_ok
    | apply keeps_bind; [|intros ?]
    | apply keeps_try_except; [|intros ?]
    | apply keeps_try_finally
    | apply keeps_for_each; intros ? ?
    | match goal with
      | |- keeps _ (if ?b then _ else _) => destruct b
      | |- keeps _ (match ?x with _ => _ end) => destruct x
      end ].

Ltac keeps_tac := repeat keeps_step.

Lemma keeps_unlink_if_exists p : keeps R (unlink_if_exists p).
Proof. unfold unlink_if_exists, path_exists. keeps_tac. Qed.

Lemma keeps_grep_filter_file E self i o patterns :
  keeps R (grep_filter_file E self i o patterns).
Proof.
  unfold grep_filter_file. keeps_tac.
Qed.

Lemma keeps_filter_single_file E self f patterns :
  keeps R (filter_single_file E self f patterns).
Proof.
  unfold filter_single_file. keeps_tac.
Qed.

Lemma keeps_collect E self patterns acc f :
  keeps R (collect E self patterns acc f).
Proof. unfold collect. keeps_tac. Qed.

Lemma keeps_filter_found_files E self : keeps R (filter_found_files E self).
Proof.
  unfold filter_found_files. keeps_tac.
Qed.

Lemma keeps_create_summary E self total :
  keeps R (create_summary E self total).
Proof. unfold create_summary. keeps_tac. Qed.

Lemma keeps_copy2 src d : keeps R (copy2 src d).
Proof. unfold copy2. keeps_tac. Qed.

Lemma keeps_main_report E a self total :
  keeps R (main_report E a self total).
Proof.
  unfold main_report. keeps_tac.
Qed.

Lemma keeps_main_finally : keeps R main_finally.
Proof. unfold main_finally. keeps_tac. Qed.

Lemma keeps_get_patient_ids a : keeps R (get_patient_ids a).
Proof. unfold get_patient_ids. keeps_tac. Qed.

End Frame.

Lemma arena_kept_refl w : arena_kept w w.
Proof. split; [set_solver | reflexivity]. Qed.

Lemma arena_kept_trans w1 w2 w3 :
  arena_kept w1 w2 -> arena_kept w2 w3 -> arena_kept w1 w3.
Proof. intros [H1 T1] [H2 T2]. split; [set_solver | congruence]. Qed.

Lemma arena_kept_files f w : arena_kept w (set_files f w).
Proof. split; reflexivity. Qed.

Lemma arena_kept_mkdir d w : arena_kept w (set_dirs (union {[d]}) w).
Proof. split; [cbn [dirs set_dirs]; set_solver | reflexivity]. Qed.

Lemma arena_kept_log r w : arena_kept w (add_log r w).
Proof. split; reflexivity. Qed.

Ltac arena_facts :=
  first [ exact arena_kept_refl | exact arena_kept_trans
        | exact arena_kept_files | exact arena_kept_mkdir
        | exact arena_kept_log ].

(** From the creation of the temporary directory to the end of [main],
    no directory is removed and [self.temp_dir] stays as it is. *)
Lemma main_tail_keeps_arena E (a : args) self w :
  temp_dir w = None ->
  arena_kept
    (World (files w) (unreadable w) ({[mkdtemp_name E]} ∪ dirs w)
       (log w ++ [(INFO, CreatedTemporaryDirectory (mkdtemp_name E))])
       (Some (mkdtemp_name E)))
    (try_finally (main_try E a self) main_finally w).2.
Proof.
  intros Ht. unfold try_finally. rewrite main_try_fresh by exact Ht.
  set (w3 := World _ _ _ _ _).
  assert (Hbody : keeps arena_kept
                    (bind (filter_found_files E self) (main_report E a self))).
  { apply keeps_bind; [arena_facts | |intros total].
    - apply keeps_filter_found_files; arena_facts.
    - apply keeps_main_report; arena_facts. }
  specialize (Hbody w3).
  destruct (bind _ _ w3) as [r w4]. cbn [snd] in Hbody.
  rewrite main_finally_eq. cbn [snd].
  eapply arena_kept_trans; [exact Hbody | apply arena_kept_log].
Qed.

(** C10 (amended).  The option [--keep-temp] has no effect on a run;
    [main] removes no directory, whatever its outcome; once [main] has
    identifiers to work with, the temporary directory it creates exists
    when [main] ends, and [self.temp_dir] names it; the directory goes
    away only through [cleanup_temp_directory], which [main] does not
    call. *)
Theorem arena_is_kept E (a : args) w :
  (forall b, main E (with_keep_temp b a) w = main E a w)
  /\ dirs w ⊆ dirs (main E a w).2
  /\ (forall id ids w1,
        get_patient_ids a w = (Ret (Some (id :: ids)), w1) ->
        temp_dir (main E a w).2 = Some (mkdtemp_name E)
        /\ mkdtemp_name E ∈ dirs (main E a w).2)
  /\ (forall self d w0,
        temp_dir w0 = Some d ->
        d ∉ dirs (cleanup_temp_directory self w0).2).
Proof.
  assert (Hids : forall id ids w1,
            get_patient_ids a w = (Ret (Some (id :: ids)), w1) ->
            arena_kept
              (World (files w1) (unreadable w1)
                 ({[mkdtemp_name E]} ∪ dirs w1) [] (Some (mkdtemp_name E)))
              (main E a w).2).
  { intros id ids w1 Hget. rewrite (main_proceeds E a w id ids w1 Hget).
    eapply arena_kept_trans; [| apply main_tail_keeps_arena; reflexivity].
    split; reflexivity. }
  assert (Hget : arena_kept w (get_patient_ids a w).2)
    by (apply keeps_get_patient_ids; arena_facts).
  split; [|split; [|split]].
  - intros b. reflexivity.
  - destruct (get_patient_ids a w) as [r w1] eqn:Hr. cbn [snd] in Hget.
    destruct Hget as [Hd _].
    destruct r as [[[|id ids]|]|e].
    + unfold main. rewrite (bind_eq _ _ _ _ _ Hr). exact Hd.
    + destruct (Hids id ids w1 eq_refl) as [Hd' _]. cbn [dirs] in Hd'.
      etrans; [exact Hd|]. etrans; [|exact Hd']. apply union_subseteq_r.
    + unfold main. rewrite (bind_eq _ _ _ _ _ Hr). exact Hd.
    + unfold main. rewrite (bind_raise_eq _ _ _ _ _ Hr). exact Hd.
  - intros id ids w1 Hr. destruct (Hids id ids w1 Hr) as [Hd Ht].
    cbn [dirs temp_dir] in Hd, Ht. split; [exact Ht|].
    apply Hd, elem_of_union_l, elem_of_singleton. reflexivity.
  - intros self d w0 Ht. unfold cleanup_temp_directory.
    rewrite bind_get, Ht, bind_get.
    destruct (bool_decide (d ∈ dirs w0)) eqn:Hd.
    + unfold rmtree. repeat mstep. unfold logger, modify. cbn [snd].
      wsimpl. rewrite elem_of_filter. intros [Hin _].
      unfold inside in Hin. now rewrite String.eqb_refl in Hin.
    + apply bool_decide_eq_false in Hd. exact Hd.
Qed.

Lemma arena_is_kept_witness :
  let a := args_with_patients ["P001"; "P002"] in
  let w := world_before "TypeA.ndjson.gz" sample_text in
  temp_dir (main sample_env a w).2 = Some (mkdtemp_name sample_env)
  /\ mkdtemp_name sample_env ∈ dirs (main sample_env a w).2.
Proof.
  intros a w.
  destruct (arena_is_kept sample_env a w) as (_ & _ & Hkept & _).
  apply (Hkept "P001" ["P002"] w). reflexivity.
Defined.

(** C10, as stated, fails: a run without [--keep-temp] leaves the
    temporary directory and the filtered file in place, and ends in the
    same world as the run with the option. *)
Lemma keep_temp_option_counterexample :
  let a := args_with_patients ["P001"; "P002"] in
  let w := world_before "TypeA.ndjson.gz" sample_text in
  let r := main sample_env a w in
  keep_temp a = false
  /\ r.1 = Ret tt
  /\ elements (dirs r.2) = [mkdtemp_name sample_env; "fhir"]
  /\ is_Some (files r.2 !! (mkdtemp_name sample_env, "TypeA.ndjson"))
  /\ main sample_env (with_keep_temp true a) w = r.
Proof.
  intros a w r. split; [reflexivity|]. split; [vm_compute; reflexivity|].
  split; [vm_compute; reflexivity|]. split; [vm_compute; eauto|].
  reflexivity.
Qed.

(** ** Sorting *)

Lemma insort_perm (x : string) (l : list string) :
  Py.insort x l ≡ₚ x :: l.
Proof.
  induction l as [|y l IH]; simpl; [reflexivity|].
  destruct (String.leb x y); [reflexivity|].
  rewrite IH. apply Permutation_swap.
Qed.

Lemma sorted_perm (l : list string) : Py.sorted l ≡ₚ l.
Proof.
  unfold Py.sorted. induction l as [|x l IH]; simpl; [reflexivity|].
  now rewrite insort_perm, IH.
Qed.

Lemma elem_of_sorted (x : string) (l : list string) :
  x ∈ Py.sorted l <-> x ∈ l.
Proof. now rewrite sorted_perm. Qed.

Lemma insort_ascending (x : string) (l : list string) :
  ascending l -> ascending (Py.insort x l).
Proof.
  induction l as [|y l IH]; intros Hl.
  - simpl. auto.
  - cbn [Py.insort]. destruct (String.leb x y) eqn:Hxy.
    + split; [exact Hxy | exact Hl].
    + destruct Hl as [Hhd Hl]. specialize (IH Hl).
      split; [|exact IH].
      destruct (String.leb_total x y) as [H|H]; [congruence|].
      destruct l as [|z l]; [exact H|].
      cbn [Py.insort]. destruct (String.leb x z); [exact H | exact Hhd].
Qed.

Lemma sorted_ascending (l : list string) : ascending (Py.sorted l).
Proof.
  unfold Py.sorted. induction l as [|x l IH]; [exact I|].
  now apply insort_ascending.
Qed.

(** ** The temporary directory *)



(** X2.  When [mkdtemp] hands out a directory that does not exist yet,
    with no directory and no file below it, [create_temp_directory]
    followed by [cleanup_temp_directory] leaves the files and the
    directories as they were; [self.temp_dir] names the removed directory
    afterwards. *)
Theorem create_then_cleanup_restores E self w :
  (forall x, x ∈ dirs w -> inside (mkdtemp_name E) x = false) ->
  (forall (p : path) text,
     files w !! p = Some text -> inside (mkdtemp_name E) p.1 = false) ->
  exists w',
    (create_temp_directory E self ;;; cleanup_temp_directory self) w
    = (Ret tt, w')
    /\ files w' = files w /\ dirs w' = dirs w
    /\ unreadable w' = unreadable w
    /\ temp_dir w' = Some (mkdtemp_name E)
    /\ log w' = log w
                ++ [(INFO, CreatedTemporaryDirectory (mkdtemp_name E));
                    (INFO, CleanedUpTemporaryDirectory (mkdtemp_name E))].
Proof.
  intros Hfresh Hempty.
  eexists. split; [|split; [|split; [|split; [|split]]]].
  - unfold create_temp_directory. cbv zeta. repeat mstep.
    unfold cleanup_temp_directory. repeat mstep. wsimpl. repeat mstep. wsimpl.
    rewrite bool_decide_eq_true_2
      by (apply elem_of_union_l; now apply elem_of_singleton).
    unfold rmtree. repeat mstep. unfold logger, modify. reflexivity.
  - wsimpl. apply map_filter_id. intros p x Hx.
    exact (Hempty p x Hx).
  - wsimpl. apply set_eq. intros x.
    rewrite elem_of_filter, elem_of_union, elem_of_singleton.
    split.
    + intros [Hin [->|H]]; [|exact H].
      unfold inside in Hin. now rewrite String.eqb_refl in Hin.
    + intros Hx. split; [now apply Hfresh | now right].
  - reflexivity.
  - reflexivity.
  - wsimpl. now rewrite <- app_assoc.
Qed.

Lemma create_then_cleanup_restores_witness :
  let w := world_before "TypeA.ndjson.gz" sample_text in
  exists w',
    (create_temp_directory sample_env (sample_filter ["P001"]) ;;;
     cleanup_temp_directory (sample_filter ["P001"])) w = (Ret tt, w')
    /\ files w' = files w /\ dirs w' = dirs w.
Proof.
  intros w.
  destruct (create_then_cleanup_restores sample_env (sample_filter ["P001"]) w)
    as (w' & Hrun & Hf & Hd & _).
  - intros x H. unfold w, world_before in H. cbn [dirs] in H.
    apply elem_of_singleton in H. subst x. reflexivity.
  - intros p text H. unfold w, world_before in H. cbn [files] in H.
    apply lookup_singleton_Some in H as [<- _]. reflexivity.
  - exists w'. split; [exact Hrun|]. split; assumption.
Defined.

(** ** [main] on unusual command lines *)

Lemma filter_found_files_nonpositive E self w :
  glob_files (files w) (fhir_dir self) ".ndjson.gz" ≠ [] ->
  (max_workers self <= 0)%Z ->
  filter_found_files E self w
  = (Raise ValueError,
     add_log (INFO, FoundFiles
                      (length (glob_files (files w) (fhir_dir self)
                                 ".ndjson.gz"))
                      (max_workers self)) w).
Proof.
  intros Hg Hw. unfold filter_found_files, glob. rewrite bind_get.
  destruct (glob_files _ _ _) as [|f fs]; [congruence|].
  rewrite bind_logger. now rewrite bool_decide_eq_true_2 by lia.
Qed.

(** X3.  With a negative [--threads] and at least one source file, [main]
    creates the temporary directory, logs the files it found and then ends
    with [ValueError] from the thread pool: no task runs, no file is
    written, and the [finally] clause still logs.  With [--threads 0] the
    run is the run without the option. *)
Theorem nonpositive_thread_count E (a : args) w id ids :
  patient_list a = None -> patients a = Some (id :: ids) ->
  let found := glob_files (files w) (arg_fhir_dir a) ".ndjson.gz" in
  let tmp := mkdtemp_name E in
  (forall n, threads a = Some n -> (n < 0)%Z -> found ≠ [] ->
     main E a w
     = (Raise ValueError,
        World (files w) (unreadable w) ({[tmp]} ∪ dirs w)
          (log w ++ [(INFO, Starting (length (id :: ids)));
                     (INFO, Initialized (length (id :: ids)) n);
                     (INFO, CreatedTemporaryDirectory tmp);
                     (INFO, FoundFiles (length found) n);
                     (INFO, TemporaryDirectoryPreserved (Some tmp))])
          (Some tmp)))
  /\ (threads a = Some 0%Z -> main E a w = main E (with_threads None a) w).
Proof.
  intros Hpl Hps found tmp.
  assert (Hget : get_patient_ids a w = (Ret (Some (id :: ids)), w)).
  { unfold get_patient_ids. now rewrite Hpl, Hps. }
  split.
  - intros n Hn Hneg Hfound.
    rewrite (main_proceeds E a w id ids w Hget).
    unfold try_finally. rewrite main_try_fresh by reflexivity.
    assert (Hw : workers_or_default E (threads a) = n).
    { unfold workers_or_default. rewrite Hn.
      now rewrite bool_decide_eq_false_2 by lia. }
    erewrite bind_raise_eq.
    2:{ apply filter_found_files_nonpositive.
        - exact Hfound.
        - cbn [max_workers filter_of_args]. lia. }
    rewrite main_finally_eq. wsimpl.
    cbn [max_workers fhir_dir filter_of_args]. fold found.
    rewrite Hw, <- !app_assoc. reflexivity.
  - intros H0.
    assert (Hget' : get_patient_ids (with_threads None a) w
                    = (Ret (Some (id :: ids)), w)) by exact Hget.
    rewrite (main_proceeds E a w id ids w Hget).
    rewrite (main_proceeds E (with_threads None a) w id ids w Hget').
    unfold filter_of_args, workers_or_default. rewrite H0.
    cbn [threads with_threads arg_fhir_dir].
    rewrite bool_decide_eq_true_2 by reflexivity. reflexivity.
Qed.

Lemma nonpositive_thread_count_witness :
  let a := with_threads (Some (-2)%Z) (args_with_patients ["P001"]) in
  let w := world_before "TypeA.ndjson.gz" sample_text in
  (main sample_env a w).1 = Raise ValueError
  /\ files (main sample_env a w).2 = files w
  /\ main sample_env (with_threads (Some 0%Z) a) w
     = main sample_env (with_threads None (with_threads (Some 0%Z) a)) w.
Proof.
  intros a w.
  pose proof (nonpositive_thread_count sample_env a w "P001" []
                eq_refl eq_refl) as H.
  cbv zeta in H. destruct H as [Hneg _].
  rewrite (Hneg (-2)%Z eq_refl eq_refl)
    by (vm_compute; congruence).
  split; [reflexivity|]. split; [reflexivity|].
  pose proof (nonpositive_thread_count sample_env
                (with_threads (Some 0%Z) a) w "P001" [] eq_refl eq_refl) as H.
  cbv zeta in H. destruct H as [_ Hzero].
  exact (Hzero eq_refl).
Defined.

(** X4.  When the file named by [--patient-list] is missing or cannot be
    read, [main] ends with the exception of [open]: nothing is logged, no
    directory is created and no file is written. *)
Theorem identifier_file_unavailable E (a : args) w (p : path) :
  patient_list a = Some p ->
  (files w !! p = None -> main E a w = (Raise FileNotFoundError, w))
  /\ (is_Some (files w !! p) -> p ∈ unreadable w ->
      main E a w = (Raise PermissionError, w)).
Proof.
  intros Hp. split.
  - intros Hnone. unfold main. apply bind_raise_eq.
    unfold get_patient_ids. rewrite Hp. apply bind_raise_eq.
    unfold read_patient_list. apply bind_raise_eq.
    unfold read_text. now rewrite Hnone.
  - intros [text Hsome] Hunr. unfold main. apply bind_raise_eq.
    unfold get_patient_ids. rewrite Hp. apply bind_raise_eq.
    unfold read_patient_list. apply bind_raise_eq.
    unfold read_text. rewrite Hsome.
    now rewrite bool_decide_eq_true_2.
Qed.

Lemma identifier_file_unavailable_witness :
  let w := world_before "TypeA.ndjson.gz" sample_text in
  main sample_env (args_with_patient_list (".", "ids.txt")) w
  = (Raise FileNotFoundError, w).
Proof.
  intros w.
  destruct (identifier_file_unavailable sample_env
              (args_with_patient_list (".", "ids.txt")) w (".", "ids.txt")
              eq_refl) as [Hmissing _].
  apply Hmissing. apply lookup_singleton_ne. discriminate.
Defined.

(** ** What the tasks leave behind *)

Lemma filter_single_file_no_zgrep E self w d (fhir_file : path) patterns :
  zgrep_on_path E = false -> temp_dir w = Some d -> d ∈ dirs w ->
  is_Some (files w !! fhir_file) ->
  Py.endswith ".gz" fhir_file.2 = true ->
  filter_single_file E self fhir_file patterns w =
    (Ret (Some (d, output_name fhir_file.2), 0),
     World (delete (d, output_name fhir_file.2)
              (<[(d, pattern_name fhir_file.2) := pattern_file_text patterns]>
                 (files w)))
           (unreadable w) (dirs w)
           (log w ++ [(INFO, Processing fhir_file.2);
                      (ERROR, ErrorFiltering fhir_file FileNotFoundError);
                      (INFO, NoMatchesFound fhir_file.2)])
           (temp_dir w)).
Proof.
  intros Hz Ht Hd Hin Hgz.
  unfold filter_single_file, path_exists.
  rewrite bind_get. rewrite bool_decide_eq_true_2 by exact Hin.
  cbn [negb]. rewrite bind_logger, bind_get. wsimpl.
  rewrite Ht. unfold truediv. rewrite bind_ret.
  pose proof (pattern_name_ne_output_name _ Hgz) as Hpo.
  erewrite bind_eq.
  2:{ apply grep_filter_file_no_zgrep with (d := d); wsimpl;
        first [ assumption | congruence ]. }
  cbn [Nat.ltb Nat.leb]. rewrite bind_logger. unfold ret. wsimpl.
  rewrite <- !app_assoc. reflexivity.
Qed.

(** X5.  Whether or not the matcher can be started, the loop over the
    tasks changes no file outside of the temporary directory: every source
    file has its content afterwards, the directories are the same, and
    [self.temp_dir] is unchanged. *)
Theorem tasks_leave_sources_untouched
    E self (patterns : list string) d w (fs : list path) acc :
  temp_dir w = Some d -> d ∈ dirs w ->
  (forall p : path, p ∈ unreadable w -> p.1 ≠ d) ->
  Forall (source_file d) fs ->
  exists total w',
    for_each fs (collect E self patterns) acc w = (Ret total, w')
    /\ (forall p : path, p.1 ≠ d -> files w' !! p = files w !! p)
    /\ unreadable w' = unreadable w
    /\ dirs w' = dirs w
    /\ temp_dir w' = Some d.
Proof.
  intros Ht Hd Hu Hfs. revert acc w Ht Hd Hu.
  induction Hfs as [|f fs Hf Hfs IH]; intros acc w Ht Hd Hu.
  - exists acc, w. now repeat split.
  - assert (Hstep : exists n w1,
              collect E self patterns acc f w = (Ret n, w1)
              /\ (forall p : path, p.1 ≠ d -> files w1 !! p = files w !! p)
              /\ unreadable w1 = unreadable w /\ dirs w1 = dirs w
              /\ temp_dir w1 = Some d).
    { destruct Hf as [Hne Hgz%endswith_ndjson_gz]. unfold collect.
      assert (Hout : forall p : path, p.1 ≠ d ->
                (d, output_name f.2) ≠ p /\ (d, pattern_name f.2) ≠ p).
      { intros p Hp. split; intros <-; now apply Hp. }
      destruct (files w !! f) as [text|] eqn:Hin.
      - destruct (zgrep_on_path E) eqn:Hz.
        + eexists. eexists. split.
          * apply try_except_eq. erewrite bind_eq;
              [| now apply filter_single_file_answer
                   with (d := d) (text := text)].
            reflexivity.
          * wsimpl. split; [|now repeat split].
            intros p Hp. now apply files_after_answer_outside.
        + eexists. eexists. split.
          * apply try_except_eq. erewrite bind_eq;
              [| apply filter_single_file_no_zgrep with (d := d);
                 first [assumption | (exists text; exact Hin)]].
            reflexivity.
          * wsimpl. split; [|now repeat split].
            intros p Hp. destruct (Hout p Hp). now lk.
      - eexists. eexists. split.
        + apply try_except_eq. erewrite bind_eq;
            [| now apply filter_single_file_missing].
          reflexivity.
        + wsimpl. now repeat split. }
    destruct Hstep as (n & w1 & H1 & Hf1 & Hu1 & Hd1 & Ht1).
    destruct (IH n w1) as (total & w' & H2 & Hf2 & Hu2 & Hd2 & Ht2).
    + exact Ht1.
    + now rewrite Hd1.
    + intros p Hp. apply Hu. now rewrite <- Hu1.
    + exists total, w'. split.
      * cbn [for_each]. now rewrite (bind_eq _ _ _ _ _ H1).
      * split; [|split; [congruence | split; [congruence | exact Ht2]]].
        intros p Hp. now rewrite Hf2, Hf1.
Qed.

Lemma tasks_leave_sources_untouched_witness :
  let w := world_with "TypeA.ndjson.gz" sample_text in
  exists total w',
    for_each [("fhir", "TypeA.ndjson.gz")]
      (collect env_without_zgrep (sample_filter ["P001"]) ["P001"]) 0 w
    = (Ret total, w')
    /\ files w' !! ("fhir", "TypeA.ndjson.gz") = Some sample_text.
Proof.
  intros w.
  destruct (tasks_leave_sources_untouched env_without_zgrep
              (sample_filter ["P001"]) ["P001"] "arena" w
              [("fhir", "TypeA.ndjson.gz")] 0 eq_refl)
    as (total & w' & Hrun & Hfiles & _).
  - vm_compute. reflexivity.
  - intros p Hp. cbn [unreadable world_with w] in Hp.
    exfalso. exact (not_elem_of_empty _ Hp).
  - repeat constructor; vm_compute; congruence.
  - exists total, w'. split; [exact Hrun|].
    rewrite Hfiles by (vm_compute; congruence). reflexivity.
Defined.

(** ** The summary *)

Lemma summary_lines_ext (w w' : world) (d : string) (names : list string) :
  Forall (fun n => files w' !! ((d, n) : path) = files w !! ((d, n) : path))
    names ->
  summary_lines w' d names = summary_lines w d names
  /\ map (fun n => line_count w' (d, n)) names
     = map (fun n => line_count w (d, n)) names.
Proof.
  induction 1 as [|n ns Hn _ [IH1 IH2]]; [now split|].
  cbn [summary_lines foldr map]. fold (summary_lines w' d ns).
  fold (summary_lines w d ns). unfold line_count at 1 3.
  now rewrite Hn, IH1, IH2.
Qed.

Lemma summary_loop (d : string) (names : list string) :
  forall (text : string) (acc : nat) (w : world),
  Forall (fun name => name ≠ "SUMMARY.txt"
                      /\ is_Some (files w !! ((d, name) : path))
                      /\ ((d, name) : path) ∉ unreadable w) names ->
  files w !! ((d, "SUMMARY.txt") : path) = Some text ->
  for_each names
    (fun total_resources name =>
       text <- read_text (d, name) ;;
       let count := length (Py.text_lines text) in
       append_text (d, "SUMMARY.txt") (summary_line name count) ;;;
       ret (total_resources + count))
    acc w
  = (Ret (acc + sum_list (map (fun name => line_count w (d, name)) names)),
     set_files <[(d, "SUMMARY.txt") := text +:+ summary_lines w d names]> w).
Proof.
  induction names as [|name names IH]; intros text acc w Hall Hs.
  - cbn [for_each map sum_list summary_lines foldr]. unfold ret.
    rewrite Nat.add_0_r, append_nil_r. unfold set_files.
    rewrite insert_id by exact Hs. now rewrite world_eta.
  - inversion Hall as [|? ? (Hne & [t Ht] & Hr) Hrest]; subst.
    cbn [for_each].
    rewrite bind_assoc.
    erewrite bind_eq; [| apply read_text_eq; [exact Ht | exact Hr]].
    cbv zeta. rewrite bind_assoc. unfold append_text at 1.
    rewrite bind_modify, bind_ret.
    assert (Hk : forall n : string, n ≠ "SUMMARY.txt" ->
              ((d, "SUMMARY.txt") : path) ≠ (d, n)) by congruence.
    match goal with |- for_each _ _ _ ?w1 = _ => set (w' := w1) end.
    assert (Hext : Forall (fun n => files w' !! ((d, n) : path)
                                    = files w !! ((d, n) : path)) names).
    { eapply Forall_impl; [exact Hrest|]. intros n (Hn1 & _). cbv beta.
      unfold w'. wsimpl. now rewrite lookup_insert_ne by (apply Hk; exact Hn1). }
    destruct (summary_lines_ext w w' d names Hext) as [Hlines Hmap].
    rewrite (IH (text +:+ summary_line name (length (Py.text_lines t))) _ w').
    + rewrite Hmap, Hlines. unfold w'. wsimpl.
      rewrite insert_insert_eq.
      cbn [map sum_list summary_lines foldr]. fold (summary_lines w d names).
      assert (Hlc : line_count w (d, name) = length (Py.text_lines t))
        by (unfold line_count; now rewrite Ht).
      rewrite !Hlc.
      rewrite append_assoc, Nat.add_assoc. reflexivity.
    + rewrite List.Forall_forall in Hrest, Hext. apply List.Forall_forall.
      intros n Hn. destruct (Hrest n Hn) as (Hn1 & Hn2 & Hn3).
      split; [exact Hn1|]. split; [|exact Hn3].
      now rewrite (Hext n Hn).
    + unfold w'. wsimpl. rewrite Hs. cbn [default].
      apply lookup_insert_eq.
Qed.

Lemma endswith_ndjson_not_summary (name : string) :
  Py.endswith ".ndjson" name = true -> name ≠ "SUMMARY.txt".
Proof. intros H ->. vm_compute in H. discriminate. Qed.

Lemma sorted_entries_glob (fs : gmap path string) (w : world) (d suffix : string) :
  (forall name, Py.endswith suffix name = true ->
     is_Some (fs !! ((d, name) : path)) <-> is_Some (files w !! ((d, name) : path))) ->
  sorted_entries w d suffix (Py.sorted (map snd (glob_files fs d suffix))).
Proof.
  intros Hfs. split; [apply sorted_ascending|]. split.
  - rewrite sorted_perm.
    change (map snd (glob_files fs d suffix))
      with (snd <$> glob_files fs d suffix).
    apply NoDup_fmap_2_strong.
    + intros [d1 n1] [d2 n2] [_ [H1 _]]%elem_of_glob_files
        [_ [H2 _]]%elem_of_glob_files Heq.
      simpl in *. congruence.
    + unfold glob_files. apply NoDup_filter, NoDup_elements.
  - intros name. rewrite elem_of_sorted.
    change (map snd (glob_files fs d suffix))
      with (snd <$> glob_files fs d suffix).
    rewrite list_elem_of_fmap. split.
    + intros ([d1 n1] & -> & (Hsome & Hd & Hsuf)%elem_of_glob_files).
      simpl in *. subst d1. split; [|exact Hsuf]. now apply Hfs.
    + intros [Hsome Hsuf]. exists (d, name). split; [reflexivity|].
      apply elem_of_glob_files. simpl. split; [|now split].
      now apply Hfs.
Qed.

Lemma summary_file_is_no_entry E self (w : world) (d : string) (name : string) :
  Py.endswith ".ndjson" name = true ->
  <[((d, "SUMMARY.txt") : path) := summary_header E self]> (files w)
    !! ((d, name) : path)
  = files w !! ((d, name) : path).
Proof.
  intros Hn%endswith_ndjson_not_summary. apply lookup_insert_ne. congruence.
Qed.

Lemma create_summary_run E self (total_filtered : nat) w d :
  temp_dir w = Some d -> d ∈ dirs w ->
  (forall p : path, p ∈ unreadable w -> p.1 ≠ d) ->
  let names :=
    Py.sorted
      (map snd
         (glob_files
            (<[((d, "SUMMARY.txt") : path) := summary_header E self]> (files w))
            d ".ndjson")) in
  create_summary E self total_filtered w
  = (Ret tt,
     World (<[(d, "SUMMARY.txt") := summary_text E self w d names]> (files w))
           (unreadable w) (dirs w)
           (log w ++ [(INFO, SummaryWritten (d, "SUMMARY.txt"))])
           (temp_dir w)).
Proof.
  intros Ht Hd Hu.
  set (fs1 := <[((d, "SUMMARY.txt") : path) := summary_header E self]> (files w)).
  intros names.
  assert (Hsame : forall name, Py.endswith ".ndjson" name = true ->
            fs1 !! ((d, name) : path) = files w !! ((d, name) : path)).
  { intros name Hn. now apply summary_file_is_no_entry. }
  assert (Hent : sorted_entries w d ".ndjson" names).
  { apply sorted_entries_glob. intros name Hn. now rewrite Hsame. }
  unfold create_summary. rewrite bind_get, Ht. unfold truediv.
  rewrite bind_ret.
  erewrite bind_eq; [| apply write_text_eq; exact Hd].
  unfold append_text at 1. rewrite bind_modify.
  unfold glob. rewrite bind_get. wsimpl.
  rewrite lookup_insert_eq. cbn [default from_option id String.append].
  rewrite insert_insert_eq. fold fs1. fold names.
  destruct Hent as (_ & _ & Hmem).
  set (w1 := World fs1 (unreadable w) (dirs w) (log w) (temp_dir w)).
  assert (Hext : Forall (fun n => files w1 !! ((d, n) : path)
                                  = files w !! ((d, n) : path)) names).
  { apply List.Forall_forall. intros name Hn.
    apply list_elem_of_In, Hmem in Hn as [_ Hsuf]. now apply Hsame. }
  destruct (summary_lines_ext w w1 d names Hext) as [Hlines Hmap].
  erewrite bind_eq.
  2:{ apply summary_loop with (text := summary_header E self).
      - apply List.Forall_forall. intros name Hn.
        apply list_elem_of_In, Hmem in Hn as [Hsome Hsuf].
        split; [now apply endswith_ndjson_not_summary|].
        split; [unfold w1; wsimpl; now rewrite Hsame|].
        intros Hx. now apply (Hu _ Hx).
      - unfold w1, fs1. wsimpl. apply lookup_insert_eq. }
  unfold append_text. rewrite bind_modify. unfold logger, modify.
  rewrite Hlines, Hmap. unfold w1, fs1. wsimpl.
  rewrite lookup_insert_eq. cbn [default from_option id].
  rewrite !insert_insert_eq.
  unfold summary_text, nl. rewrite Nat.add_0_l, !append_assoc, ?Ht.
  reflexivity.
Qed.

(** X6.  [create_summary] writes into [SUMMARY.txt] of the temporary
    directory the header, one line for each [*.ndjson] file of that
    directory in ascending order of the names, with the number of lines of
    the file, and a [TOTAL] line with the sum of these numbers.  Its argument
    [total_filtered] has no influence on what is written; the rest of the
    world is unchanged apart from one log record. *)
Theorem create_summary_text E self (total_filtered : nat) w d :
  temp_dir w = Some d -> d ∈ dirs w ->
  (forall p : path, p ∈ unreadable w -> p.1 ≠ d) ->
  exists names,
    sorted_entries w d ".ndjson" names
    /\ create_summary E self total_filtered w
       = (Ret tt,
          World (<[(d, "SUMMARY.txt") := summary_text E self w d names]>
                   (files w))
                (unreadable w) (dirs w)
                (log w ++ [(INFO, SummaryWritten (d, "SUMMARY.txt"))])
                (temp_dir w)).
Proof.
  intros Ht Hd Hu.
  exists (Py.sorted
            (map snd
               (glob_files
                  (<[((d, "SUMMARY.txt") : path) := summary_header E self]>
                     (files w))
                  d ".ndjson"))).
  split.
  - (* the summary file, which exists when the directory is listed, is
       not among the entries: its name does not end in [.ndjson] *)
    apply sorted_entries_glob. intros name Hn.
    now rewrite summary_file_is_no_entry.
  - now apply create_summary_run.
Qed.

Lemma create_summary_text_witness :
  let w := World {[ ("arena", "TypeA.ndjson") := subject_record "P001" +:+ nl;
                    ("arena", "notes.txt") := "x" ]}
                 ∅ {[ "arena" ]} [] (Some "arena") in
  exists names,
    sorted_entries w "arena" ".ndjson" names
    /\ create_summary sample_env (sample_filter ["P001"]) 7 w
       = (Ret tt,
          World (<[("arena", "SUMMARY.txt") :=
                     summary_text sample_env (sample_filter ["P001"]) w
                       "arena" names]> (files w))
                (unreadable w) (dirs w)
                (log w ++ [(INFO, SummaryWritten ("arena", "SUMMARY.txt"))])
                (temp_dir w)).
Proof.
  intros w.
  apply (create_summary_text sample_env (sample_filter ["P001"]) 7 w
           "arena" eq_refl).
  - vm_compute. reflexivity.
  - intros p Hp. exfalso. exact (not_elem_of_empty _ Hp).
Defined.

(** ** Copying to the output directory *)

Lemma copy2_eq (src : path) (out : string) w text :
  files w !! src = Some text -> src ∉ unreadable w -> out ∈ dirs w ->
  copy2 src out w = (Ret tt, set_files <[((out, src.2) : path) := text]> w).
Proof.
  intros Hs Hr Ho. unfold copy2.
  erewrite bind_eq; [| apply (read_text_eq _ _ text); assumption].
  apply write_text_eq. exact Ho.
Qed.

Lemma copy_loop (d out : string) (l : list path) :
  out ≠ d ->
  forall w, out ∈ dirs w ->
  Forall (fun f : path => f.1 = d /\ is_Some (files w !! f)
                          /\ f ∉ unreadable w) l ->
  exists fs',
    for_each l (fun _ f => copy2 f out) tt w
    = (Ret tt, World fs' (unreadable w) (dirs w) (log w) (temp_dir w))
    /\ (forall f : path, f ∈ l -> fs' !! ((out, f.2) : path) = files w !! f)
    /\ (forall p : path, (forall f : path, f ∈ l -> p ≠ (out, f.2)) ->
          fs' !! p = files w !! p).
Proof.
  intros Hne. induction l as [|f l IH]; intros w Ho Hall.
  - exists (files w). split; [|split].
    + cbn [for_each]. unfold ret. now rewrite world_eta.
    + intros f Hf. now apply elem_of_nil in Hf.
    + reflexivity.
  - inversion Hall as [|? ? (Hfd & [text Ht] & Hfr) Hrest]; subst.
    set (w1 := set_files <[((out, f.2) : path) := text]> w).
    assert (Hkeep : forall g : path, g.1 = f.1 -> files w1 !! g = files w !! g).
    { intros g Hg. unfold w1. wsimpl. apply lookup_insert_ne.
      intros Heq. apply Hne. rewrite <- Hg, <- Heq. reflexivity. }
    destruct (IH w1) as (fs' & Hrun & Hin & Hout).
    + exact Ho.
    + eapply Forall_impl; [exact Hrest|]. intros g (Hg1 & Hg2 & Hg3).
      cbv beta. split; [exact Hg1|]. split; [|exact Hg3].
      now rewrite Hkeep.
    + exists fs'. split; [|split].
      * cbn [for_each].
        erewrite bind_eq; [| now apply copy2_eq with (text := text)].
        exact Hrun.
      * intros g Hg. apply elem_of_cons in Hg as [->|Hg].
        -- destruct (decide (f ∈ l)) as [Hfl|Hfl].
           ++ rewrite (Hin f Hfl). now apply Hkeep.
           ++ rewrite Hout.
              ** unfold w1. wsimpl. rewrite lookup_insert_eq. now rewrite Ht.
              ** intros g Hg Heq. apply Hfl.
                 rewrite List.Forall_forall in Hrest.
                 destruct (Hrest g) as (Hg1 & _);
                   [now apply list_elem_of_In|].
                 assert (g = f) as ->; [|exact Hg].
                 destruct g as [g1 g2], f as [f1 f2]. simpl in *.
                 congruence.
        -- rewrite (Hin g Hg). apply Hkeep.
           rewrite List.Forall_forall in Hrest.
           destruct (Hrest g) as (Hg1 & _); [now apply list_elem_of_In|].
           exact Hg1.
      * intros p Hp. rewrite Hout.
        -- unfold w1. wsimpl. apply lookup_insert_ne.
           intros Heq. apply (Hp f); [now left | now rewrite Heq].
        -- intros g Hg. apply Hp. now right.
Qed.

Lemma bind_congr {A B} (m : M A) (k k' : A -> M B) w :
  (forall a w1, k a w1 = k' a w1) -> bind m k w = bind m k' w.
Proof.
  intros H. unfold bind. destruct (m w) as [[a|e] w1]; [apply H | reflexivity].
Qed.

Lemma mkdir_exist_ok_eq (d : string) w :
  dir_available w d ->
  mkdir_exist_ok d w = (Ret tt, set_dirs (union {[d]}) w).
Proof.
  unfold mkdir_exist_ok. intros [Hd | [Hf Hp]].
  - rewrite bool_decide_eq_true_2 by exact Hd. f_equal.
    destruct w as [fs u ds l t]. unfold set_dirs. cbn in *. f_equal.
    apply set_eq. intros x. rewrite elem_of_union, elem_of_singleton.
    split; [now right | intros [->|H]; assumption].
  - destruct (bool_decide (d ∈ dirs w)) eqn:Hd.
    + apply bool_decide_eq_true in Hd. f_equal.
      destruct w as [fs u ds l t]. unfold set_dirs. cbn in *. f_equal.
      apply set_eq. intros x. rewrite elem_of_union, elem_of_singleton.
      split; [now right | intros [->|H]; assumption].
    + rewrite Hf. destruct (parent_dir d); [|reflexivity].
      now rewrite bool_decide_eq_true_2.
Qed.

(** The report step up to the creation of the output directory: the
    summary is written and three records are logged. *)
Lemma main_report_until_mkdir E (a : args) self (total : nat) w d out :
  total ≠ 0 -> output_dir a = Some out ->
  temp_dir w = Some d -> d ∈ dirs w ->
  (forall p : path, p ∈ unreadable w -> p.1 ≠ d) ->
  exists summary,
    let w1 := World (<[((d, "SUMMARY.txt") : path) := summary]> (files w))
                (unreadable w) (dirs w)
                (log w ++ [(INFO, SummaryWritten (d, "SUMMARY.txt"));
                           (INFO, Completed);
                           (INFO, FilteredTotal total)])
                (temp_dir w) in
    main_report E a self total w
    = (mkdir_exist_ok out ;;;
       ndjson_files <- glob d ".ndjson" ;;
       for_each ndjson_files (fun _ f => copy2 f out) tt ;;;
       present <- path_exists (d, "SUMMARY.txt") ;;
       (if present then copy2 (d, "SUMMARY.txt") out else ret tt) ;;;
       logger INFO (FilesCopiedTo out)) w1.
Proof.
  intros Hn Hout Ht Hd Hu.
  pose proof (create_summary_run E self total w d Ht Hd Hu) as Hsum.
  cbv zeta in Hsum.
  match type of Hsum with
  | context [summary_text E self w d ?names] =>
      exists (summary_text E self w d names)
  end.
  cbv zeta.
  unfold main_report. rewrite bool_decide_eq_false_2 by exact Hn.
  erewrite bind_eq; [| exact Hsum].
  rewrite !bind_logger, bind_get. wsimpl. rewrite Hout.
  rewrite <- !app_assoc. cbn [app]. rewrite Ht.
  apply bind_congr. intros [] w2. unfold deref. now rewrite bind_ret.
Qed.

(** X7.  With [--output-dir out], where [out] is not the temporary
    directory and is a directory that exists or that [mkdir] can create,
    the report step ends normally after it has copied every [*.ndjson]
    file of the temporary directory and the summary to [out] under the
    same name.  Nothing else changes: the files outside of [out] other
    than the summary, and the other entries of [out], are as before.
    When a regular file is in the place of [out], or the directory that
    is to hold [out] does not exist, the step ends with the exception of
    [mkdir] after the summary is written: nothing is copied. *)
Theorem filtered_files_are_copied E (a : args) self (total : nat) w d out :
  total ≠ 0 -> output_dir a = Some out -> out ≠ d ->
  temp_dir w = Some d -> d ∈ dirs w ->
  (forall p : path, p ∈ unreadable w -> p.1 ≠ d) ->
  (dir_available w out -> as_entry out ≠ (d, "SUMMARY.txt") ->
   exists fs' summary,
     main_report E a self total w
     = (Ret tt,
        World fs' (unreadable w) ({[out]} ∪ dirs w)
          (log w ++ [(INFO, SummaryWritten (d, "SUMMARY.txt"));
                     (INFO, Completed);
                     (INFO, FilteredTotal total);
                     (INFO, FilesCopiedTo out)])
          (temp_dir w))
     /\ fs' !! ((d, "SUMMARY.txt") : path) = Some summary
     /\ fs' !! ((out, "SUMMARY.txt") : path) = Some summary
     /\ (forall name, Py.endswith ".ndjson" name = true ->
           is_Some (files w !! ((d, name) : path)) ->
           fs' !! ((out, name) : path) = files w !! ((d, name) : path))
     /\ (forall p : path, p.1 ≠ out -> p ≠ (d, "SUMMARY.txt") ->
           fs' !! p = files w !! p)
     /\ (forall name, name ≠ "SUMMARY.txt" ->
           ~ (Py.endswith ".ndjson" name = true
              /\ is_Some (files w !! ((d, name) : path))) ->
           fs' !! ((out, name) : path) = files w !! ((out, name) : path)))
  /\ (out ∉ dirs w ->
      is_file w out = true
      \/ (exists p, parent_dir out = Some p /\ p ∉ dirs w) ->
      exists e w',
        main_report E a self total w = (Raise e, w')
        /\ (e = FileExistsError \/ e = NotADirectoryError
            \/ e = FileNotFoundError)
        /\ (is_file w out = true -> e = FileExistsError)
        /\ dirs w' = dirs w
        /\ is_Some (files w' !! ((d, "SUMMARY.txt") : path))
        /\ (forall p : path, p ≠ (d, "SUMMARY.txt") ->
              files w' !! p = files w !! p)).
Proof.
  intros Hn Hout Hne Ht Hd Hu.
  destruct (main_report_until_mkdir E a self total w d out Hn Hout Ht Hd Hu)
    as (summary & Hreport).
  cbv zeta in Hreport. rewrite Hreport. clear Hreport.
  set (fs1 := <[((d, "SUMMARY.txt") : path) := summary]> (files w)) in *.
  set (w1 := World fs1 (unreadable w) (dirs w)
               (log w ++ [(INFO, SummaryWritten (d, "SUMMARY.txt"));
                          (INFO, Completed);
                          (INFO, FilteredTotal total)])
               (temp_dir w)).
  split.
  - intros Hav Hentry.
    set (w2 := World fs1 (unreadable w) ({[out]} ∪ dirs w)
                 (log w ++ [(INFO, SummaryWritten (d, "SUMMARY.txt"));
                            (INFO, Completed);
                            (INFO, FilteredTotal total)])
                 (temp_dir w)).
    assert (Hmk : mkdir_exist_ok out w1 = (Ret tt, w2)).
    { apply mkdir_exist_ok_eq. destruct Hav as [Hin | [Hf Hp]].
      - left. exact Hin.
      - right. split; [|exact Hp].
        unfold is_file, w1, fs1 in *. cbn [files].
        rewrite lookup_insert_ne by congruence. exact Hf. }
    set (l := glob_files fs1 d ".ndjson").
    assert (Hl : forall f : path, f ∈ l ->
              f.1 = d /\ Py.endswith ".ndjson" f.2 = true
              /\ is_Some (files w !! f) /\ fs1 !! f = files w !! f).
    { intros f (Hsome & Hfd & Hsuf)%elem_of_glob_files.
      assert (Hfs : fs1 !! f = files w !! f).
      { unfold fs1. apply lookup_insert_ne. intros <-.
        now apply (endswith_ndjson_not_summary _ Hsuf). }
      rewrite Hfs in Hsome. auto. }
    destruct (copy_loop d out l Hne w2) as (fs2 & Hrun & Hin & Hother).
    { unfold w2. wsimpl. apply elem_of_union_l, elem_of_singleton.
      reflexivity. }
    { apply List.Forall_forall. intros f Hf%list_elem_of_In.
      destruct (Hl f Hf) as (Hfd & _ & Hsome & Hfs).
      split; [exact Hfd|]. unfold w2. wsimpl. split; [now rewrite Hfs|].
      intros Hx. apply (Hu _ Hx). exact Hfd. }
    assert (Hs2 : fs2 !! ((d, "SUMMARY.txt") : path) = Some summary).
    { rewrite Hother.
      - unfold w2, fs1. wsimpl. apply lookup_insert_eq.
      - intros f _ Heq. apply Hne. congruence. }
    exists (<[((out, "SUMMARY.txt") : path) := summary]> fs2), summary.
    split; [|split; [|split; [|split; [|split]]]].
    + erewrite bind_eq; [| exact Hmk].
      unfold glob. rewrite bind_get. unfold w2 at 1. cbn [files]. fold l.
      erewrite bind_eq; [| exact Hrun].
      unfold path_exists. rewrite bind_get. wsimpl.
      rewrite Hs2, bool_decide_eq_true_2 by eauto.
      erewrite bind_eq.
      2:{ apply copy2_eq with (text := summary); wsimpl.
          - exact Hs2.
          - intros Hx. now apply (Hu _ Hx).
          - unfold w2. wsimpl.
            apply elem_of_union_l, elem_of_singleton. reflexivity. }
      unfold logger, modify, w2. wsimpl.
      rewrite <- !app_assoc. reflexivity.
    + rewrite lookup_insert_ne by congruence. exact Hs2.
    + apply lookup_insert_eq.
    + intros name Hsuf Hsome.
      pose proof (endswith_ndjson_not_summary _ Hsuf) as Hns.
      rewrite lookup_insert_ne by congruence.
      assert (Hf : ((d, name) : path) ∈ l).
      { apply elem_of_glob_files. cbn [fst snd]. split; [|now split].
        unfold fs1. rewrite lookup_insert_ne by congruence. exact Hsome. }
      pose proof (Hin _ Hf) as Hc. cbn [snd] in Hc. rewrite Hc.
      unfold w2, fs1. wsimpl. apply lookup_insert_ne. congruence.
    + intros p Hp Hps.
      rewrite lookup_insert_ne by (intros <-; now apply Hp).
      rewrite Hother.
      * unfold w2, fs1. wsimpl. apply lookup_insert_ne. congruence.
      * intros f _ ->. now apply Hp.
    + intros name Hns Hnot.
      rewrite lookup_insert_ne by congruence.
      rewrite Hother.
      * unfold w2, fs1. wsimpl. apply lookup_insert_ne. congruence.
      * intros f Hf Heq. apply Hnot.
        destruct (Hl f Hf) as (Hfd & Hsuf & Hsome & _).
        assert (f = (d, name)) as ->.
        { destruct f as [f1 f2]. simpl in *. congruence. }
        now split.
  - intros Hnew Hbad.
    assert (Hfile : is_file w out = true -> is_file w1 out = true).
    { unfold is_file, w1, fs1. cbn [files]. intros H.
      apply bool_decide_eq_true in H. apply bool_decide_eq_true_2.
      destruct (decide (((d, "SUMMARY.txt") : path) = as_entry out))
        as [<-|Hx].
      - rewrite lookup_insert_eq. eauto.
      - now rewrite lookup_insert_ne. }
    assert (Hmk : exists e,
              mkdir_exist_ok out w1 = (Raise e, w1)
              /\ (e = FileExistsError \/ e = NotADirectoryError
                  \/ e = FileNotFoundError)
              /\ (is_file w out = true -> e = FileExistsError)).
    { unfold mkdir_exist_ok.
      rewrite bool_decide_eq_false_2 by exact Hnew.
      destruct (is_file w1 out) eqn:Hf1.
      - exists FileExistsError. auto.
      - destruct Hbad as [Hf | (p & Hp & Hpd)];
          [pose proof (Hfile Hf); congruence|].
        rewrite Hp. change (dirs w1) with (dirs w).
        rewrite bool_decide_eq_false_2 by exact Hpd.
        destruct (existsb _ _).
        + exists NotADirectoryError. split; [reflexivity|].
          split; [auto|]. intros Hf. pose proof (Hfile Hf).
          congruence.
        + exists FileNotFoundError. split; [reflexivity|].
          split; [auto|]. intros Hf. pose proof (Hfile Hf).
          congruence. }
    destruct Hmk as (e & Hmk & He & Hfe).
    exists e, w1. split; [now apply bind_raise_eq|].
    split; [exact He|]. split; [exact Hfe|]. split; [reflexivity|].
    unfold w1, fs1. cbn [files]. split.
    + rewrite lookup_insert_eq. eauto.
    + intros p Hp. now rewrite lookup_insert_ne.
Qed.

Lemma filtered_files_are_copied_witness :
  (exists fs' summary,
     main_report sample_env (args_with_output_dir ["P001"] "out")
       (sample_filter ["P001"]) 1 world_after_tasks
     = (Ret tt,
        World fs' ∅ ({["out"]} ∪ dirs world_after_tasks)
          [(INFO, SummaryWritten ("arena", "SUMMARY.txt"));
           (INFO, Completed);
           (INFO, FilteredTotal 1);
           (INFO, FilesCopiedTo "out")]
          (Some "arena"))
     /\ fs' !! (("out", "SUMMARY.txt") : path) = Some summary
     /\ fs' !! (("out", "TypeA.ndjson") : path)
        = Some (subject_record "P001" +:+ nl))
  /\ (exists e w',
        main_report sample_env (args_with_output_dir ["P001"] "nodir/out")
          (sample_filter ["P001"]) 1 world_after_tasks
        = (Raise e, w')
        /\ dirs w' = dirs world_after_tasks).
Proof.
  split.
  - destruct (filtered_files_are_copied sample_env
                (args_with_output_dir ["P001"] "out") (sample_filter ["P001"])
                1 world_after_tasks "arena" "out")
      as [Hok _].
    + discriminate.
    + reflexivity.
    + discriminate.
    + reflexivity.
    + vm_compute. reflexivity.
    + intros p Hp. exfalso. exact (not_elem_of_empty _ Hp).
    + destruct Hok as (fs' & summary & Hrun & _ & Hs & Hcopy & _).
      * right. split; [vm_compute; reflexivity | exact I].
      * vm_compute. congruence.
      * exists fs', summary. split; [exact Hrun|]. split; [exact Hs|].
        rewrite Hcopy; [reflexivity | reflexivity |].
        eexists. reflexivity.
  - destruct (filtered_files_are_copied sample_env
                (args_with_output_dir ["P001"] "nodir/out")
                (sample_filter ["P001"])
                1 world_after_tasks "arena" "nodir/out")
      as [_ Hbad].
    + discriminate.
    + reflexivity.
    + discriminate.
    + reflexivity.
    + vm_compute. reflexivity.
    + intros p Hp. exfalso. exact (not_elem_of_empty _ Hp).
    + destruct Hbad as (e & w' & Hrun & _ & _ & Hd & _).
      * vm_compute. intros H. discriminate H.
      * right. exists "nodir". split; [reflexivity|].
        vm_compute. intros H. discriminate H.
      * exists e, w'. split; [exact Hrun | exact Hd].
Defined.

(** ** The files that the tasks leave in the temporary directory *)



Lemma arena_ready_log E d r w :
  arena_ready E d w -> arena_ready E d (add_log r w).
Proof. intros H. exact H. Qed.




(** ** A successful run *)





(** ** Ascending lists *)

Lemma ascii_compare_spec (a b : ascii) :
  CompareSpec (a = b) (N_of_ascii a < N_of_ascii b)%N
    (N_of_ascii b < N_of_ascii a)%N (Ascii.compare a b).
Proof.
  unfold Ascii.compare. destruct (N.compare_spec (N_of_ascii a) (N_of_ascii b));
    constructor; try assumption.
  now rewrite <- (ascii_N_embedding a), <- (ascii_N_embedding b), H.
Qed.

Lemma ascii_compare_refl (a : ascii) : Ascii.compare a a = Eq.
Proof. unfold Ascii.compare. apply N.compare_refl. Qed.

Lemma string_leb_trans (x y z : string) :
  String.leb x y = true -> String.leb y z = true -> String.leb x z = true.
Proof.
  unfold String.leb. revert y z.
  induction x as [|a x IH]; intros [|b y] [|c z]; simpl; try congruence.
  destruct (ascii_compare_spec a b) as [Hab|Hab|Hab];
    destruct (ascii_compare_spec b c) as [Hbc|Hbc|Hbc];
    destruct (ascii_compare_spec a c) as [Hac|Hac|Hac];
    subst; try congruence; try lia; try apply IH.
Qed.

Lemma ascending_head (x : string) (l : list string) :
  ascending (x :: l) -> Forall (fun y => String.leb x y = true) l.
Proof.
  revert x. induction l as [|y l IH]; intros x [Hxy Hl]; constructor.
  - exact Hxy.
  - eapply Forall_impl; [apply IH; exact Hl|].
    intros z Hz. cbv beta in *. now apply string_leb_trans with y.
Qed.

(** A list has one arrangement in ascending order. *)
Lemma ascending_unique (l1 l2 : list string) :
  ascending l1 -> ascending l2 -> l1 ≡ₚ l2 -> l1 = l2.
Proof.
  revert l2. induction l1 as [|x l1 IH]; intros l2 H1 H2 Hp.
  - now apply Permutation_nil_l in Hp.
  - destruct l2 as [|y l2]; [now apply Permutation_nil_r in Hp|].
    assert (Hxy : x = y).
    { pose proof (ascending_head _ _ H1) as Hx.
      pose proof (ascending_head _ _ H2) as Hy.
      rewrite List.Forall_forall in Hx, Hy.
      assert (Hyin : y ∈ x :: l1) by (rewrite Hp; now left).
      assert (Hxin : x ∈ y :: l2) by (rewrite <- Hp; now left).
      apply elem_of_cons in Hyin as [->|Hyin]; [reflexivity|].
      apply elem_of_cons in Hxin as [->|Hxin]; [reflexivity|].
      apply String.leb_antisym.
      - apply Hx. now apply list_elem_of_In.
      - apply Hy. now apply list_elem_of_In. }
    subst y. f_equal. apply IH.
    + now destruct H1.
    + now destruct H2.
    + now apply Permutation_cons_inv in Hp.
Qed.

Lemma sorted_permutation (l1 l2 : list string) :
  l1 ≡ₚ l2 -> Py.sorted l1 = Py.sorted l2.
Proof.
  intros Hp. apply ascending_unique; try apply sorted_ascending.
  now rewrite !sorted_perm.
Qed.

(** ** [bulk_import.py] *)

(** X11.  Every entry of [type_mapping] other than the four that begin
    with [MimicMedication] and are longer is honoured: a file name that
    begins with the entry's pattern is mapped to the entry's resource type,
    whatever follows the pattern. *)
Theorem unshadowed_table_entries (pattern resource_type rest : string) :
  In (pattern, resource_type) BulkImport.type_mapping ->
  pattern = "MimicMedication"
  \/ Py.startswith "MimicMedication" pattern = false ->
  BulkImport.map_filename_to_resource_type (pattern +:+ rest) = resource_type.
Proof.
  intros Hin Hs. unfold BulkImport.type_mapping in Hin. simpl in Hin.
  repeat (destruct Hin as [Hin|Hin];
          [injection Hin as <- <-;
           first [reflexivity
                 | exfalso; destruct Hs as [Hs|Hs]; discriminate Hs]|]).
  contradiction.
Qed.

Lemma unshadowed_table_entries_witness :
  BulkImport.map_filename_to_resource_type
    ("MimicObservation" +:+ "Labevents.ndjson.gz") = "Observation".
Proof.
  apply unshadowed_table_entries.
  - simpl. do 10 right. left. reflexivity.
  - right. reflexivity.
Defined.

Lemma filter_perm {A} (f : A -> bool) (l1 l2 : list A) :
  l1 ≡ₚ l2 -> List.filter f l1 ≡ₚ List.filter f l2.
Proof.
  induction 1 as [|x l1 l2 _ IH|x y l|l1 l2 l3 _ IH1 _ IH2]; simpl.
  - reflexivity.
  - destruct (f x); [now rewrite IH | exact IH].
  - destruct (f x), (f y); try reflexivity. apply Permutation_swap.
  - now rewrite IH1.
Qed.

(** X12.  [get_available_files] returns the entries of [./fhir] whose name
    ends in [.ndjson] or [.ndjson.gz] and does not begin with a dot, in
    ascending order; the result does not depend on the order in which the
    system lists the directory.  When the directory is missing or cannot be
    listed the result is the empty list. *)
Theorem available_files_are_the_sorted_ndjson_entries :
  (forall entries,
     let files := (Importer.get_available_files (Importer.Listed entries)).2 in
     ascending files
     /\ (forall f, f ∈ files
           <-> f ∈ entries
               /\ (Py.endswith ".ndjson" f = true
                   \/ Py.endswith ".ndjson.gz" f = true)
               /\ Py.startswith "." f = false)
     /\ (forall entries', entries ≡ₚ entries' ->
           Importer.get_available_files (Importer.Listed entries')
           = Importer.get_available_files (Importer.Listed entries)))
  /\ (Importer.get_available_files Importer.Absent).2 = []
  /\ (forall e, (Importer.get_available_files (Importer.NotListable e)).2 = []).
Proof.
  split; [|split; [reflexivity | reflexivity]].
  intros entries files. subst files. cbn [Importer.get_available_files snd].
  split; [apply sorted_ascending|]. split.
  - intros f. rewrite elem_of_sorted, !list_elem_of_In, List.filter_In.
    unfold Importer.is_ndjson_name.
    rewrite andb_true_iff, orb_true_iff, negb_true_iff. tauto.
  - intros entries' Hp. cbn [Importer.get_available_files]. f_equal.
    apply sorted_permutation, filter_perm. now symmetry.
Qed.

Lemma available_files_are_the_sorted_ndjson_entries_witness :
  Importer.get_available_files
    (Importer.Listed ["b.ndjson"; ".hidden.ndjson"; "a.ndjson.gz"; "notes.txt"])
  = Importer.get_available_files
      (Importer.Listed [".hidden.ndjson"; "b.ndjson"; "a.ndjson.gz"; "notes.txt"])
  /\ (Importer.get_available_files
        (Importer.Listed ["b.ndjson"; ".hidden.ndjson"; "a.ndjson.gz";
                          "notes.txt"])).2
     = ["a.ndjson.gz"; "b.ndjson"].
Proof.
  destruct available_files_are_the_sorted_ndjson_entries as [H _].
  destruct (H [".hidden.ndjson"; "b.ndjson"; "a.ndjson.gz"; "notes.txt"])
    as (_ & _ & Hperm).
  split; [|reflexivity].
  apply Hperm. apply Permutation_swap.
Defined.

Lemma split_free (sep : ascii) (b : string) :
  has_char sep b = false -> Importer.split sep b = [b].
Proof.
  induction b as [|c b IH]; intros Hb; [reflexivity|].
  cbn [has_char] in Hb. apply orb_false_elim in Hb as [Hc Hb].
  cbn [Importer.split]. now rewrite Hc, (IH Hb).
Qed.

Lemma split_snoc (sep : ascii) (a b : string) :
  has_char sep b = false ->
  exists x l, Importer.split sep (a +:+ String sep b) = x :: l ++ [b].
Proof.
  intros Hb. induction a as [|c a (x & l & IH)].
  - exists EmptyString, []. cbn [String.append Importer.split].
    now rewrite Ascii.eqb_refl, split_free.
  - cbn [String.append Importer.split]. rewrite IH.
    destruct (Ascii.eqb c sep).
    + now exists EmptyString, (x :: l).
    + now exists (String c x), l.
Qed.

Lemma split_spec (sep : ascii) (s : string) :
  (has_char sep s = false /\ Importer.split sep s = [s])
  \/ (exists pre id x l,
        s = pre +:+ String sep id /\ has_char sep id = false
        /\ Importer.split sep s = x :: l ++ [id]).
Proof.
  induction s as [|c s IH]; [now left|].
  cbn [Importer.split has_char].
  destruct (Ascii.eqb c sep) eqn:Hc.
  - apply Ascii.eqb_eq in Hc. subst c. right.
    destruct IH as [[Hs Hsp] | (pre & id & x & l & Hs & Hid & Hsp)].
    + exists EmptyString, s, EmptyString, []. now rewrite Hsp.
    + exists (String sep pre), id, EmptyString, (x :: l).
      rewrite Hsp, Hs. auto.
  - destruct IH as [[Hs Hsp] | (pre & id & x & l & Hs & Hid & Hsp)].
    + left. now rewrite Hsp, Hs.
    + right. exists (String c pre), id, (String c x), l.
      rewrite Hsp, Hs. auto.
Qed.

Lemma last_snoc {A} (x : A) (l : list A) (b d : A) :
  List.last (x :: l ++ [b]) d = b.
Proof. exact (List.last_last (x :: l) b d). Qed.

(** X13.  [create_import_job] returns a job id exactly when the server
    answers 202 with a non-empty [Content-Location] header.  The id is the
    part of the header after its last slash: it holds no slash, and the
    header is the id itself or ends in a slash followed by the id.  A header
    that ends in a slash therefore yields the empty string as the id. *)
Theorem job_id_is_last_segment
    (self : Importer.FHIRBulkImporter) (input_files : list Importer.input_file)
    (post : string -> Importer.json -> option Importer.response) :
  let url := Importer.fhir_base_url self +:+ "/$import" in
  let body := Importer.import_request self input_files in
  (forall id,
     Importer.create_import_job self input_files post = Some id ->
     exists r header,
       post url body = Some r /\ Importer.status_code r = 202%Z
       /\ Importer.content_location r = Some header
       /\ header ≠ EmptyString
       /\ has_char "/" id = false
       /\ (header = id \/ exists pre, header = pre +:+ "/" +:+ id))
  /\ (forall r header,
        post url body = Some r -> Importer.status_code r = 202%Z ->
        Importer.content_location r = Some header ->
        header ≠ EmptyString ->
        is_Some (Importer.create_import_job self input_files post))
  /\ (forall r pre id,
        post url body = Some r -> Importer.status_code r = 202%Z ->
        Importer.content_location r = Some (pre +:+ "/" +:+ id) ->
        has_char "/" id = false ->
        Importer.create_import_job self input_files post = Some id).
Proof.
  intros url body. split; [|split].
  - intros id. unfold Importer.create_import_job. fold url. fold body.
    destruct (post url body) as [r|]; [|discriminate].
    case_bool_decide as Hst; [|discriminate].
    destruct (Importer.content_location r) as [[|c header]|] eqn:Hcl;
      try discriminate.
    intros Hid.
    assert (id = List.last (Importer.split "/" (String c header)) EmptyString)
      as -> by congruence.
    clear Hid. exists r, (String c header).
    split; [reflexivity|]. split; [exact Hst|]. split; [exact Hcl|].
    split; [discriminate|].
    destruct (split_spec "/" (String c header))
      as [[Hs Hsp] | (pre & id & x & l & Hs & Hid & Hsp)].
    + rewrite Hsp. cbn [List.last]. split; [exact Hs | now left].
    + rewrite Hsp, last_snoc. split; [exact Hid|]. right. now exists pre.
  - intros r header Hpost Hst Hcl Hne.
    unfold Importer.create_import_job. fold url. fold body.
    rewrite Hpost, bool_decide_eq_true_2 by exact Hst. rewrite Hcl.
    destruct header; [congruence | eauto].
  - intros r pre id Hpost Hst Hcl Hid.
    unfold Importer.create_import_job. fold url. fold body.
    rewrite Hpost, bool_decide_eq_true_2 by exact Hst. rewrite Hcl.
    destruct (split_snoc "/" pre id Hid) as (x & l & Hsp).
    change (pre +:+ "/" +:+ id) with (pre +:+ String "/" id) in *.
    destruct (pre +:+ String "/" id) as [|c s] eqn:Happ.
    + destruct pre; discriminate Happ.
    + now rewrite Hsp, last_snoc.
Qed.

Lemma job_id_is_last_segment_witness :
  let self := Importer.init "http://localhost:8080/fhir/" "http://fhir-files:8000" in
  let post := fun (_ : string) (_ : Importer.json) =>
                Some {| Importer.status_code := 202;
                        Importer.content_location :=
                          Some ("http://localhost:8080/fhir/$import-poll-status"
                                +:+ "/" +:+ "42") |} in
  Importer.create_import_job self [] post = Some "42".
Proof.
  intros self post.
  pose proof (job_id_is_last_segment self [] post) as H. cbv zeta in H.
  destruct H as (_ & _ & H).
  apply (H _ "http://localhost:8080/fhir/$import-poll-status" "42" eq_refl);
    reflexivity.
Defined.

(** ** [fhir_file_server.py] *)

Lemma read_spec (n : nat) (s : string) :
  (FileServer.read n s).1 +:+ (FileServer.read n s).2 = s
  /\ String.length (FileServer.read n s).1 = Nat.min n (String.length s).
Proof.
  revert s. induction n as [|n IH]; intros s; [now split|].
  destruct s as [|c s]; [now split|].
  cbn [FileServer.read]. destruct (IH s) as [H1 H2].
  destruct (FileServer.read n s) as [chunk rest]. cbn [fst snd] in *.
  split; [cbn [String.append]; now rewrite H1
         | cbn [String.length Nat.min]; now rewrite H2].
Qed.

Lemma send_chunks_spec (fuel : nat) (s : string) :
  String.length s < fuel ->
  exists chunks,
    FileServer.send_chunks fuel s = map FileServer.Write chunks
    /\ foldr String.append EmptyString chunks = s
    /\ Forall (fun chunk => 0 < String.length chunk <= FileServer.chunk_size)
         chunks.
Proof.
  revert s. induction fuel as [|fuel IH]; intros s Hlen; [lia|].
  cbn [FileServer.send_chunks].
  destruct (read_spec FileServer.chunk_size s) as [Happ Hl].
  destruct (FileServer.read FileServer.chunk_size s) as [chunk rest].
  cbn [fst snd] in *.
  destruct chunk as [|c chunk].
  - exists []. split; [reflexivity|]. split; [|constructor].
    cbn [foldr]. destruct s as [|c s]; [reflexivity|].
    exfalso. cbn [String.length] in Hl.
    assert (0 < FileServer.chunk_size) by (unfold FileServer.chunk_size; lia).
    lia.
  - destruct (IH rest) as (chunks & Hrun & Hcat & Hall).
    { subst s. rewrite length_append in Hlen. cbn [String.length] in Hlen.
      lia. }
    exists (String c chunk :: chunks). split; [|split].
    + cbn [map]. now rewrite Hrun.
    + cbn [foldr]. now rewrite Hcat.
    + constructor; [|exact Hall]. cbn [String.length] in Hl |- *. lia.
Qed.

Lemma written_app (a b : list FileServer.event) :
  FileServer.written (a ++ b) = FileServer.written a ++ FileServer.written b.
Proof. unfold FileServer.written. apply omap_app. Qed.

Lemma written_writes (chunks : list string) :
  FileServer.written (map FileServer.Write chunks) = chunks.
Proof. induction chunks as [|c l IH]; [reflexivity|]. cbn. now f_equal. Qed.

Lemma touched_app (a b : list FileServer.event) :
  FileServer.touched (a ++ b) = FileServer.touched a ++ FileServer.touched b.
Proof. unfold FileServer.touched. apply omap_app. Qed.

Lemma touched_writes (chunks : list string) :
  FileServer.touched (map FileServer.Write chunks) = [].
Proof. induction chunks as [|c l IH]; [reflexivity|]. exact IH. Qed.

Lemma join_app_fhir (path : string) :
  Py.startswith "/" path = false ->
  FileServer.os_path_join "/app/fhir" path = "/app/fhir/" +:+ path.
Proof. intros H. unfold FileServer.os_path_join. now rewrite H. Qed.

Section Handler.

Variable unquote : string -> string.
Variable guess_type : string -> option string.
Variable node_at : string -> option FileServer.node.

Lemma touched_do_GET (self_path : string) :
  let path := unquote (FileServer.lstrip_slash self_path) in
  let full_path := "/app/fhir/" +:+ path in
  FileServer.touched (FileServer.do_GET unquote guess_type node_at self_path)
  = if Py.contains ".." path || Py.startswith "/" path then []
    else match node_at full_path with
         | None => [full_path]
         | Some FileServer.Directory => [full_path; full_path]
         | Some (FileServer.RegularFile _ _) =>
             [full_path; full_path; full_path; full_path]
         end.
Proof.
  intros path full_path. unfold FileServer.do_GET. fold path.
  destruct (Py.contains ".." path) eqn:Hdots; [reflexivity|].
  destruct (Py.startswith "/" path) eqn:Hslash; [reflexivity|].
  cbn [orb]. rewrite (join_app_fhir _ Hslash). fold full_path.
  destruct (node_at full_path) as [[|content [e|]]|]; try reflexivity.
  - destruct (Py.endswith ".ndjson.gz" path); reflexivity.
  - destruct (send_chunks_spec (S (String.length content)) content)
      as (chunks & Hrun & _); [lia|].
    unfold FileServer.send_file_content. rewrite Hrun.
    assert (Htail : forall msg,
              FileServer.touched
                (map FileServer.Write chunks ++ [FileServer.LoggingInfo msg])
              = []).
    { intros msg. now rewrite touched_app, touched_writes. }
    destruct (Py.endswith ".ndjson.gz" path);
      unfold FileServer.touched in *;
      cbn [app omap FileServer.end_headers mbind option_bind list_omap];
      rewrite Htail; reflexivity.
Qed.

(** X14.  Whatever is requested, [do_GET] looks in the file system only at
    the path [/app/fhir/] followed by the decoded request path, and only
    when that decoded path holds no [..] and does not begin with a slash;
    the path it looks at holds no [..] either.  Every other request is
    answered without any access to the file system. *)
Theorem do_GET_stays_below_app_fhir (self_path p : string) :
  p ∈ FileServer.touched
        (FileServer.do_GET unquote guess_type node_at self_path) ->
  let path := unquote (FileServer.lstrip_slash self_path) in
  p = "/app/fhir/" +:+ path
  /\ Py.contains ".." p = false
  /\ Py.startswith "/" path = false.
Proof.
  intros Hp path. rewrite touched_do_GET in Hp. fold path in Hp.
  cbv zeta in Hp.
  destruct (Py.contains ".." path) eqn:Hdots;
    [now apply elem_of_nil in Hp|].
  destruct (Py.startswith "/" path) eqn:Hslash;
    [now apply elem_of_nil in Hp|].
  cbn [orb] in Hp.
  assert (Hall : p = "/app/fhir/" +:+ path).
  { destruct (node_at ("/app/fhir/" +:+ path)) as [[|content e]|];
      repeat (apply elem_of_cons in Hp as [Hp|Hp]; [exact Hp|]);
      now apply elem_of_nil in Hp. }
  split; [exact Hall|]. split; [|reflexivity].
  subst p. cbn. exact Hdots.
Qed.

Lemma omap_writes {A} (f : FileServer.event -> option A) (chunks : list string) :
  (forall chunk, f (FileServer.Write chunk) = None) ->
  omap f (map FileServer.Write chunks) = [].
Proof.
  intros Hf. induction chunks as [|c l IH]; [reflexivity|].
  cbn [map]. cbn. now rewrite Hf.
Qed.

(** X15.  For a request whose decoded path passes the traversal check and
    names a regular file, [do_GET] answers 200 with the size of the file as
    [Content-Length] and writes exactly the bytes of the file, in chunks of
    at most [chunk_size] bytes; no other status is sent.  When the file
    cannot be opened, status 200 has already been sent when the handler
    sends status 500, and no byte is written. *)
Theorem do_GET_serves_the_file (self_path content : string) :
  let path := unquote (FileServer.lstrip_slash self_path) in
  let tr := FileServer.do_GET unquote guess_type node_at self_path in
  Py.contains ".." path = false -> Py.startswith "/" path = false ->
  (node_at ("/app/fhir/" +:+ path)
   = Some (FileServer.RegularFile content None) ->
   FileServer.statuses tr = [200]
   /\ ("Content-Length", Py.str (String.length content))
      ∈ FileServer.headers tr
   /\ foldr String.append EmptyString (FileServer.written tr) = content
   /\ Forall (fun chunk =>
                0 < String.length chunk <= FileServer.chunk_size)
        (FileServer.written tr))
  /\ (forall e,
        node_at ("/app/fhir/" +:+ path)
        = Some (FileServer.RegularFile content (Some e)) ->
        FileServer.statuses tr = [200; 500]
        /\ FileServer.written tr = []).
Proof.
  intros path tr Hdots Hslash. subst tr. unfold FileServer.do_GET.
  fold path. rewrite Hdots, Hslash. cbn [orb].
  rewrite (join_app_fhir _ Hslash). split.
  - intros ->.
    destruct (send_chunks_spec (S (String.length content)) content)
      as (chunks & Hrun & Hcat & Hall); [lia|].
    unfold FileServer.send_file_content. rewrite Hrun.
    assert (Hst : forall msg,
              FileServer.statuses
                (map FileServer.Write chunks ++ [FileServer.LoggingInfo msg])
              = []).
    { intros msg. unfold FileServer.statuses.
      now rewrite omap_app, omap_writes. }
    assert (Hwr : forall msg,
              FileServer.written
                (map FileServer.Write chunks ++ [FileServer.LoggingInfo msg])
              = chunks).
    { intros msg. rewrite written_app, written_writes. apply app_nil_r. }
    destruct (Py.endswith ".ndjson.gz" path).
    + split; [|split; [|split]].
      * unfold FileServer.statuses in *.
        cbn [app omap FileServer.end_headers mbind option_bind list_omap].
        now rewrite Hst.
      * right. left.
      * unfold FileServer.written in *.
        cbn [app omap FileServer.end_headers mbind option_bind list_omap].
        rewrite Hwr. exact Hcat.
      * unfold FileServer.written in *.
        cbn [app omap FileServer.end_headers mbind option_bind list_omap].
        rewrite Hwr. exact Hall.
    + split; [|split; [|split]].
      * unfold FileServer.statuses in *.
        cbn [app omap FileServer.end_headers mbind option_bind list_omap].
        now rewrite Hst.
      * right. left.
      * unfold FileServer.written in *.
        cbn [app omap FileServer.end_headers mbind option_bind list_omap].
        rewrite Hwr. exact Hcat.
      * unfold FileServer.written in *.
        cbn [app omap FileServer.end_headers mbind option_bind list_omap].
        rewrite Hwr. exact Hall.
  - intros e ->.
    split; destruct (Py.endswith ".ndjson.gz" path); reflexivity.
Qed.

End Handler.

Lemma do_GET_stays_below_app_fhir_witness :
  "/app/fhir/MimicPatient.ndjson" = "/app/fhir/" +:+ "MimicPatient.ndjson"
  /\ Py.contains ".." "/app/fhir/MimicPatient.ndjson" = false
  /\ Py.startswith "/" "MimicPatient.ndjson" = false.
Proof.
  pose proof (do_GET_stays_below_app_fhir (fun s => s) (fun _ => None)
                FileServer.sample_node_at "/MimicPatient.ndjson"
                "/app/fhir/MimicPatient.ndjson") as H.
  cbv zeta in H. apply H. vm_compute. left.
Defined.

Lemma do_GET_serves_the_file_witness :
  let tr := FileServer.do_GET (fun s => s) (fun _ => None)
              FileServer.sample_node_at "/MimicPatient.ndjson" in
  FileServer.statuses tr = [200]
  /\ foldr String.append EmptyString (FileServer.written tr) = "abc".
Proof.
  intros tr.
  pose proof (do_GET_serves_the_file (fun s => s) (fun _ => None)
                FileServer.sample_node_at "/MimicPatient.ndjson" "abc"
                eq_refl eq_refl) as H.
  cbv zeta in H. destruct H as [H _].
  destruct (H eq_refl) as (Hst & _ & Hcat & _).
  split; [exact Hst | exact Hcat].
Defined.

(** ** The pattern files of distinct source files *)

Lemma append_inj_r (a b c : string) : a +:+ c = b +:+ c -> a = b.
Proof.
  revert b. induction a as [|x a IH]; intros [|y b] H.
  - reflexivity.
  - exfalso. apply (f_equal String.length) in H.
    cbn [String.append String.length] in H. rewrite length_append in H. lia.
  - exfalso. apply (f_equal String.length) in H.
    cbn [String.append String.length] in H. rewrite length_append in H. lia.
  - cbn [String.append] in H. injection H as -> H. f_equal. now apply IH.
Qed.

Lemma stem_gz (a : string) :
  a ≠ EmptyString -> Py.stem (a +:+ ".gz") = a.
Proof.
  intros Ha. unfold Py.stem. rewrite rfind_dot_gz.
  assert (Hpos : (0 <? String.length a) = true).
  { apply Nat.ltb_lt. destruct a; [congruence | cbn; lia]. }
  assert (Hlt : (String.length a <? String.length (a +:+ ".gz") - 1)
                = true).
  { apply Nat.ltb_lt. rewrite length_append. cbn. lia. }
  rewrite Hpos, Hlt. cbn [andb]. apply substring_prefix.
Qed.

(** X16.  Source files with different names have different pattern files,
    so that no task writes or removes the pattern file of another. *)
Theorem pattern_files_are_distinct (name1 name2 : string) :
  Py.endswith ".ndjson.gz" name1 = true ->
  Py.endswith ".ndjson.gz" name2 = true ->
  name1 ≠ name2 -> pattern_name name1 ≠ pattern_name name2.
Proof.
  intros [a1 ->]%endswith_spec [a2 ->]%endswith_spec Hne Heq. apply Hne.
  unfold pattern_name in Heq.
  change (a1 +:+ ".ndjson.gz") with (a1 +:+ ".ndjson" +:+ ".gz") in Heq.
  change (a2 +:+ ".ndjson.gz") with (a2 +:+ ".ndjson" +:+ ".gz") in Heq.
  rewrite <- !(append_assoc _ ".ndjson" ".gz") in Heq.
  rewrite !stem_gz in Heq by (destruct a1, a2; discriminate).
  cbn [String.append] in Heq.
  injection Heq as Heq.
  apply append_inj_r in Heq. apply append_inj_r in Heq.
  now rewrite Heq.
Qed.

Lemma pattern_files_are_distinct_witness :
  pattern_name "TypeA.ndjson.gz" ≠ pattern_name "TypeA.gz.ndjson.gz".
Proof.
  apply pattern_files_are_distinct; [reflexivity | reflexivity | discriminate].
Defined.
